(** * Email investigation tool: network analyzer and network monitor

    A shallow embedding of [network_analyzer.py] and [network_monitor.py].

    Conventions of the embedding:
    - Python [int] is [Z]; Python [float] (times, percentages) is idealised
      by the rationals [Q], compared with [==];
    - Python [str] is [string]; a character is a code point below 256
      (Latin-1), which fixes what [str.strip], [str.split], [str.lower],
      [\s] and [\d] do on every character of the model;
    - an exception is a value of [exn]; a call that may raise returns
      [Exc A];
    - everything the operating system answers (the output of the tracing
      tool, socket probes, DNS answers, the connection table of the process)
      is an argument of the function that asks for it. *)

From Stdlib Require Import ZArith QArith String Ascii List Bool Lia.
From stdpp Require Import base strings gmap list pretty.
Import ListNotations.

Local Open Scope string_scope.
Local Open Scope Z_scope.

(** ** Python primitives *)

Module Py.

Inductive exn :=
| NameError (name : string)
| ValueError
| IndexError
| TimeoutExpired
| FileNotFoundError
| OtherError.

Definition Exc (A : Type) : Type := exn + A.

Definition ret {A} (a : A) : Exc A := inr a.

Definition raise {A} (e : exn) : Exc A := inl e.

Definition bind {A B} (m : Exc A) (k : A -> Exc B) : Exc B :=
  match m with
  | inl e => inl e
  | inr a => k a
  end.

(** [try: body / except: handler], for a handler that catches every
    exception of the model. *)
Definition try_except {A} (body : Exc A) (handler : exn -> Exc A) : Exc A :=
  match body with
  | inl e => handler e
  | inr a => inr a
  end.

Definition chars (s : string) : list ascii := list_ascii_of_string s.
Definition str (l : list ascii) : string := string_of_list_ascii l.

Definition code (c : ascii) : N := N_of_ascii c.

(** [str.isspace] on one character: the class stripped by [str.strip()],
    split on by [str.split()] and matched by [\s]. *)
Definition isspace (c : ascii) : bool :=
  let n := code c in
  ((9 <=? n) && (n <=? 13) || (28 <=? n) && (n <=? 32)
   || (n =? 133) || (n =? 160))%N.

(** Decimal digits: [\d], [[0-9]] and the digits [int()] accepts. *)
Definition isdigit (c : ascii) : bool :=
  let n := code c in ((48 <=? n) && (n <=? 57))%N.

Definition digit_val (c : ascii) : Z := Z.of_N (code c) - 48.

Definition lower_char (c : ascii) : ascii :=
  let n := code c in
  if ((65 <=? n) && (n <=? 90)
      || (192 <=? n) && (n <=? 222) && negb (n =? 215))%N
  then ascii_of_N (n + 32) else c.

Definition upper_char (c : ascii) : ascii :=
  let n := code c in
  if ((97 <=? n) && (n <=? 122)
      || (224 <=? n) && (n <=? 254) && negb (n =? 247))%N
  then ascii_of_N (n - 32) else c.

Definition lower (s : string) : string := str (map lower_char (chars s)).
Definition upper (s : string) : string := str (map upper_char (chars s)).

Fixpoint lstrip (l : list ascii) : list ascii :=
  match l with
  | c :: l' => if isspace c then lstrip l' else l
  | [] => []
  end.

Definition strip_chars (l : list ascii) : list ascii :=
  rev (lstrip (rev (lstrip l))).

Definition strip (s : string) : string := str (strip_chars (chars s)).

(** [s.split()] without argument: the maximal runs of non-space
    characters.  [cur] is the run being read, reversed. *)
Fixpoint split_go (cur : list ascii) (l : list ascii) : list string :=
  match l with
  | [] => match cur with [] => [] | _ => [str (rev cur)] end
  | c :: l' =>
      if isspace c
      then match cur with
           | [] => split_go [] l'
           | _ => str (rev cur) :: split_go [] l'
           end
      else split_go (c :: cur) l'
  end.

Definition split (s : string) : list string := split_go [] (chars s).

(** [s.split(sep)] for a one-character separator: always at least one
    field. *)
Fixpoint split_on_go (sep : ascii) (cur : list ascii) (l : list ascii)
  : list string :=
  match l with
  | [] => [str (rev cur)]
  | c :: l' =>
      if Ascii.eqb c sep
      then str (rev cur) :: split_on_go sep [] l'
      else split_on_go sep (c :: cur) l'
  end.

Definition split_on (sep : ascii) (s : string) : list string :=
  split_on_go sep [] (chars s).

(** [s.count(c)] for a one-character needle. *)
Definition count (c : ascii) (s : string) : Z :=
  Z.of_nat (length (List.filter (fun x => Ascii.eqb x c) (chars s))).

Fixpoint starts_with (p l : list ascii) : bool :=
  match p, l with
  | [], _ => true
  | a :: p', b :: l' => Ascii.eqb a b && starts_with p' l'
  | _ :: _, [] => false
  end.

Fixpoint contains_chars (p l : list ascii) : bool :=
  starts_with p l ||
  match l with
  | [] => false
  | _ :: l' => contains_chars p l'
  end.

(** [p in s] on strings. *)
Definition contains (p s : string) : bool :=
  contains_chars (chars p) (chars s).

(** [int(tok)] on a token without surrounding space: an optional sign,
    then decimal digits, single underscores allowed between digits.
    [None] stands for [ValueError]. *)
Fixpoint int_digits (acc : Z) (prev_digit : bool) (l : list ascii)
  : option Z :=
  match l with
  | [] => if prev_digit then Some acc else None
  | c :: l' =>
      if isdigit c then int_digits (10 * acc + digit_val c) true l'
      else if Ascii.eqb c "_" && prev_digit then int_digits acc false l'
      else None
  end.

Definition int (s : string) : option Z :=
  match chars s with
  | "-"%char :: l => Z.opp <$> int_digits 0 false l
  | "+"%char :: l => int_digits 0 false l
  | l => int_digits 0 false l
  end.

(** [float(tok)] on the tokens the timing pattern captures: digits, an
    optional point, optional digits. *)
Fixpoint float_frac (acc : Q) (scale : Q) (l : list ascii) : Q :=
  match l with
  | c :: l' =>
      if isdigit c
      then float_frac (acc + inject_Z (digit_val c) * scale)%Q
                      (scale / 10)%Q l'
      else acc
  | [] => acc
  end.

Fixpoint float_int (acc : Z) (l : list ascii) : Q :=
  match l with
  | c :: l' =>
      if isdigit c then float_int (10 * acc + digit_val c) l'
      else if Ascii.eqb c "." then float_frac (inject_Z acc) (1 # 10) l'
      else inject_Z acc
  | [] => inject_Z acc
  end.

Definition float (s : string) : Q := float_int 0 (chars s).

(** Truth value of an optional string: [None] and [''] are false. *)
Definition truthy_str (o : option string) : bool :=
  match o with
  | Some s => negb (String.eqb s "")
  | None => false
  end.

(** [l[start:]]: a negative [start] counts from the end, and an index out
    of range is clipped. *)
Definition slice_from {A} (start : Z) (l : list A) : list A :=
  let n := Z.of_nat (length l) in
  let first := if start <? 0 then Z.max 0 (n + start) else Z.min start n in
  drop (Z.to_nat first) l.

(** [range(n)]: empty when [n] is not positive. *)
Definition range (n : Z) : list Z := map Z.of_nat (seq 0 (Z.to_nat n)).

(** Objects a name of the module can be bound to. *)
Inductive obj :=
| Bool (b : bool)
| Module_ (name : string)
| Class_ (name : string)
| Function_ (name : string).

Definition truthy (o : obj) : bool :=
  match o with
  | Bool b => b
  | _ => true
  end.

(** Reading a name that is no local of the function: the global scope of
    the module (with the builtins behind it) answers, or [NameError]. *)
Definition load_name (scope : gmap string obj) (name : string) : Exc obj :=
  match scope !! name with
  | Some o => inr o
  | None => inl (NameError name)
  end.

End Py.

(** ** Regular expressions

    The fragment of [re] the analyzer uses: literals, character classes,
    sequence, greedy repetition of a class, greedy option and one capture
    group.  Matching backtracks as Python's does ([k] is what remains to be
    matched), and [search] returns the leftmost match. *)

Module Re.

Inductive re :=
| Eps
| Chr (c : ascii)
| Cls (p : ascii -> bool)
| Seq (r1 r2 : re)
| Many (p : ascii -> bool)
| Opt (r : re)
| Grp (r : re).

Definition Plus (p : ascii -> bool) : re := Seq (Cls p) (Many p).

Fixpoint Lit (l : list ascii) : re :=
  match l with
  | [] => Eps
  | c :: l' => Seq (Chr c) (Lit l')
  end.

Record match_obj := { group1 : option string }.

Definition groups := option (list ascii).

(** Greedy [p*]: the longest run first, shorter ones on failure of [k]. *)
Fixpoint many (p : ascii -> bool) (s : list ascii)
         (k : list ascii -> option groups) : option groups :=
  match s with
  | c :: s' =>
      if p c
      then match many p s' k with
           | Some g => Some g
           | None => k s
           end
      else k s
  | [] => k []
  end.

Fixpoint run (r : re) (s : list ascii) (g : groups)
         (k : list ascii -> groups -> option groups) : option groups :=
  match r with
  | Eps => k s g
  | Chr c =>
      match s with
      | x :: s' => if Ascii.eqb x c then k s' g else None
      | [] => None
      end
  | Cls p =>
      match s with
      | x :: s' => if p x then k s' g else None
      | [] => None
      end
  | Seq r1 r2 => run r1 s g (fun s' g' => run r2 s' g' k)
  | Many p => many p s (fun s' => k s' g)
  | Opt r' =>
      match run r' s g k with
      | Some g' => Some g'
      | None => k s g
      end
  | Grp r' =>
      run r' s g
          (fun s' _ => k s' (Some (take (length s - length s') s)))
  end.

Definition match_at (r : re) (s : list ascii) : option groups :=
  run r s None (fun _ g => Some g).

Fixpoint search_chars (r : re) (s : list ascii) : option groups :=
  match match_at r s with
  | Some g => Some g
  | None =>
      match s with
      | [] => None
      | _ :: s' => search_chars r s'
      end
  end.

(** [re.search(r, s)]: [None] when there is no match. *)
Definition search (r : re) (s : string) : option match_obj :=
  (fun g => {| group1 := Py.str <$> g |}) <$> search_chars r (Py.chars s).

End Re.

(** ** network_analyzer.py *)

Module Analyzer.
Import Py Re.

Notation "'do' x <- m ; k" := (bind m (fun x => k))
  (at level 10, x name, m at level 100, k at level 200, only parsing).

Record DNSResult := {
  dns_hostname : string;
  ip_addresses : list string;
  mx_records : list (Z * string);
  dns_response_time : Q;
  authoritative : bool;
  dnssec_valid : bool }.

Record TracerouteHop := {
  hop_number : Z;
  ip_address : string;
  hostname : option string;
  response_time : Q;
  is_timeout : bool }.

Record NetworkPath := {
  target_host : string;
  target_ip : string;
  hops : list TracerouteHop;
  total_hops : Z;
  packet_loss : Q;
  avg_rtt : Q;
  isp_detected : option string }.

Record PortScanResult := {
  port : Z;
  is_open : bool;
  scan_response_time : option Q;
  service : option string }.

(** The notes appended to [suspicious_behavior]; the two notes that print a
    measurement carry it instead of its [.1f] rendering. *)
Inductive note :=
| Port25Blocked
| HighPacketLoss (pct : Q)
| HighLatency (ms : Q)
| ComcastDetected.

Record ISPAnalysis := {
  isp_name : option string;
  suspicious_behavior : list note;
  blocked_ports : list Z;
  throttling_detected : bool;
  dpi_detected : bool;
  connection_resets : Z;
  recommendations : list string }.

(** *** resolve_dns *)

(** What [dns_resolver.resolve(hostname, rdtype)] answers: the records, or
    an exception. *)
Record resolver := {
  resolve_A : string -> Exc (list string);
  resolve_MX : string -> Exc (list (Z * string)) }.

(** [start_time], [now] and [now'] are the readings of [time.time()] on
    entry, after the two lookups and in the outer handler.  The result
    comes with the updated [analysis_cache]. *)
Definition resolve_dns (rs : resolver) (start_time now now' : Q)
           (analysis_cache : gmap string DNSResult) (hostname : string)
  : Exc (DNSResult * gmap string DNSResult) :=
  try_except
    (do a_records <- try_except (resolve_A rs hostname) (fun _ => ret []);
     do mx <- try_except (resolve_MX rs hostname) (fun _ => ret []);
     let response_time := (now - start_time)%Q in
     let authoritative := (0 <? Z.of_nat (length a_records)) in
     let result := {| dns_hostname := hostname;
                      ip_addresses := a_records;
                      mx_records := mx;
                      dns_response_time := response_time;
                      authoritative := authoritative;
                      dnssec_valid := false |} in
     ret (result, <[hostname := result]> analysis_cache))
    (fun _ =>
       ret ({| dns_hostname := hostname;
               ip_addresses := [];
               mx_records := [];
               dns_response_time := (now' - start_time)%Q;
               authoritative := false;
               dnssec_valid := false |}, analysis_cache)).

(** *** traceroute *)

Definition dotted_quad : re :=
  Seq (Plus isdigit) (Seq (Chr ".")
 (Seq (Plus isdigit) (Seq (Chr ".")
 (Seq (Plus isdigit) (Seq (Chr ".") (Plus isdigit)))))).

Definition not_space (c : ascii) : bool := negb (isspace c).

(** The pattern "\(([0-9]+\.[0-9]+\.[0-9]+\.[0-9]+)\)". *)
Definition paren_ip_re : re :=
  Seq (Chr "(") (Seq (Grp dotted_quad) (Chr ")")).

(** The pattern "\s+([^\s]+)\s+\(" + re.escape(ip_addr) + "\)". *)
Definition hostname_re (ip_addr : string) : re :=
  Seq (Plus isspace) (Seq (Grp (Plus not_space))
 (Seq (Plus isspace) (Seq (Chr "(")
 (Seq (Lit (chars ip_addr)) (Chr ")"))))).

(** The pattern "\s+([0-9]+\.[0-9]+\.[0-9]+\.[0-9]+)". *)
Definition bare_ip_re : re := Seq (Plus isspace) (Grp dotted_quad).

(** The timing pattern: group 1 is [\d+ \.? \d*], then [\s*] and [ms]. *)
Definition time_re : re :=
  Seq (Grp (Seq (Plus isdigit) (Seq (Opt (Chr ".")) (Many isdigit))))
 (Seq (Many isspace) (Seq (Chr "m") (Chr "s"))).

Record loop_state := {
  ls_hops : list TracerouteHop;
  consecutive_timeouts : Z }.

(** How one pass through the body of [for line in lines] ends. *)
Inductive control :=
| Next
| Broke
| Raised (e : exn).

(** The address and host name read from a line. *)
Definition extract_ip (line : string) : option string * option string :=
  match search paren_ip_re line with
  | Some ip_match =>
      let ip_addr := group1 ip_match in
      let hostname :=
        match search (hostname_re (default "" ip_addr)) line with
        | Some hostname_match => group1 hostname_match
        | None => None
        end in
      (ip_addr, hostname)
  | None =>
      match search bare_ip_re line with
      | Some ip_match => (group1 ip_match, None)
      | None => (None, None)
      end
  end.

Definition extract_time (line : string) : Q :=
  match search time_re line with
  | Some time_match => float (default "" (group1 time_match))
  | None => 0
  end.

Section Scope.

(** The names a function body of the module can read at run time besides
    its own locals. *)
Variable scope : gmap string obj.

Definition loop_body (line : string) (st : loop_state)
  : loop_state * control :=
  if String.eqb (strip line) "" then (st, Next) else
  let parts := split (strip line) in
  if 2 <=? Z.of_nat (length parts) then
    match int (default "" (head parts)) with
    | None => (st, Next)
    | Some hop_num =>
        if 3 <=? count "*" line then
          let n := consecutive_timeouts st + 1 in
          let st' := {| ls_hops := ls_hops st;
                        consecutive_timeouts := n |} in
          if 3 <=? n then (st', Broke) else (st', Next)
        else
          let st' := {| ls_hops := ls_hops st;
                        consecutive_timeouts := 0 |} in
          let '(ip_addr, hostname) := extract_ip line in
          if negb (truthy_str ip_addr) then (st', Next) else
          let response_time := extract_time line in
          let hostname :=
            if negb (truthy_str hostname) then ip_addr else hostname in
          match load_name scope "is_timeout" with
          | inl e => (st', Raised e)
          | inr v =>
              let hop := {| hop_number := hop_num;
                            ip_address := default "" ip_addr;
                            hostname := hostname;
                            response_time := response_time;
                            is_timeout := truthy v |} in
              ({| ls_hops := ls_hops st' ++ [hop];
                  consecutive_timeouts := 0 |}, Next)
          end
    end
  else (st, Next).

Fixpoint run_loop (lines : list string) (st : loop_state)
  : loop_state * control :=
  match lines with
  | [] => (st, Next)
  | line :: rest =>
      match loop_body line st with
      | (st', Next) => run_loop rest st'
      | stop => stop
      end
  end.

(** What [subprocess.run] gives: the captured standard output, or an
    exception ([TimeoutExpired], [FileNotFoundError], ...). *)
Definition tool_run := Exc string.

(** [result.stdout.strip().split('\n')[1:]] *)
Definition output_lines (stdout : string) : list string :=
  tail (split_on "010"%char (strip stdout)).

(** The [try] block: the hops appended before the loop ended, normally
    or by an exception that the handlers swallow. *)
Definition parse_hops (tool : tool_run) : list TracerouteHop :=
  match tool with
  | inl _ => []
  | inr stdout =>
      ls_hops (fst (run_loop (output_lines stdout)
                             {| ls_hops := []; consecutive_timeouts := 0 |}))
  end.

(** The fallback connectivity test: [gethostbyname], then [connect_ex]
    on port 80, with the time it took in milliseconds; or an
    exception anywhere in between. *)
Inductive probe :=
| ProbeRaised (e : exn)
| ProbeDone (target_ip : string) (result : Z) (elapsed_ms : Q).

Definition fallback_hops (target : string) (p : probe)
  : list TracerouteHop :=
  match p with
  | ProbeRaised _ => []
  | ProbeDone target_ip result elapsed_ms =>
      if result =? 0
      then [ {| hop_number := 1;
                ip_address := target_ip;
                hostname := Some target;
                response_time := elapsed_ms;
                is_timeout := false |} ]
      else []
  end.

(** [sum(...)] starts from 0 and adds from the left. *)
Definition sum (l : list Q) : Q := fold_left Qplus l 0%Q.

Definition len {A} (l : list A) : Z := Z.of_nat (length l).

Definition valid_hops (hops : list TracerouteHop) : list TracerouteHop :=
  List.filter (fun h => negb (is_timeout h)) hops.

Definition compute_avg_rtt (hops : list TracerouteHop) : Q :=
  let valid := valid_hops hops in
  match valid with
  | [] => 0%Q
  | _ => (sum (map response_time valid) / inject_Z (len valid))%Q
  end.

Definition compute_packet_loss (hops : list TracerouteHop) : Q :=
  let valid := valid_hops hops in
  match hops with
  | [] => 0%Q
  | _ => (inject_Z (len hops - len valid) / inject_Z (len hops)
          * 100)%Q
  end.

Definition isp_patterns : list (string * list string) :=
  [ ("comcast", ["comcast"; "xfinity"]);
    ("verizon", ["verizon"; "fios"]);
    ("att", ["att.net"; "attdns"]);
    ("cox", ["cox.net"]);
    ("charter", ["charter"; "spectrum"]);
    ("centurylink", ["centurylink"; "qwest"]) ].

(** The two inner loops of [_detect_isp_from_hops] on one host name. *)
Fixpoint match_isp (table : list (string * list string))
         (hostname_lower : string) : option string :=
  match table with
  | [] => None
  | (isp, patterns) :: table' =>
      if existsb (fun pattern => contains pattern hostname_lower) patterns
      then Some (upper isp)
      else match_isp table' hostname_lower
  end.

Fixpoint _detect_isp_from_hops (hops : list TracerouteHop)
  : option string :=
  match hops with
  | [] => None
  | hop :: hops' =>
      let found :=
        if truthy_str (hostname hop)
        then match_isp isp_patterns (lower (default "" (hostname hop)))
        else None in
      match found with
      | Some isp => Some isp
      | None => _detect_isp_from_hops hops'
      end
  end.

Definition traceroute (target : string) (tool : tool_run) (p : probe)
  : NetworkPath :=
  let hops := parse_hops tool in
  let hops :=
    match hops with
    | [] => fallback_hops target p
    | _ => hops
    end in
  {| target_host := target;
     target_ip := match last hops with
                  | Some h => ip_address h
                  | None => ""
                  end;
     hops := hops;
     total_hops := len hops;
     packet_loss := compute_packet_loss hops;
     avg_rtt := compute_avg_rtt hops;
     isp_detected := _detect_isp_from_hops hops |}.

(** *** scan_smtp_ports *)

(** One TCP connect probe: the code [connect_ex] returned and the time
    it took, or an exception. *)
Inductive connect :=
| ConnectRaised (e : exn)
| ConnectEx (result : Z) (elapsed : Q).

Definition _get_smtp_service_name (port : Z) : string :=
  if port =? 25 then "SMTP"
  else if port =? 465 then "SMTPS (SSL)"
  else if port =? 587 then "SMTP (STARTTLS)"
  else if port =? 2525 then "SMTP (Alternative)"
  else "Port " +:+ pretty port.

Definition smtp_ports : list Z := [25; 465; 587; 2525].

Definition scan_port (net : Z -> connect) (port : Z) : PortScanResult :=
  match net port with
  | ConnectEx result elapsed =>
      let is_open := result =? 0 in
      {| port := port;
         is_open := is_open;
         scan_response_time := if is_open then Some elapsed else None;
         service := Some (_get_smtp_service_name port) |}
  | ConnectRaised _ =>
      {| port := port;
         is_open := false;
         scan_response_time := None;
         service := Some (_get_smtp_service_name port) |}
  end.

Definition scan_smtp_ports (net : Z -> connect) : list PortScanResult :=
  map (scan_port net) smtp_ports.

(** *** analyze_isp_interference *)

(** The probe of [_detect_dpi_signatures]: the time until the reply to
    the greeting, or an exception. *)
Inductive dpi_probe :=
| DpiRaised (e : exn)
| DpiReplied (response_time : Q).

(** [a > b] on measurements. *)
Definition Qgtb (a b : Q) : bool :=
  match (b ?= a)%Q with Lt => true | _ => false end.

Definition _detect_dpi_signatures (d : dpi_probe) : bool :=
  match d with
  | DpiReplied response_time => Qgtb response_time 5
  | DpiRaised _ => false
  end.

(** The first loop: the closed ports, and the note for port 25. *)
Fixpoint collect_blocked (results : list PortScanResult)
  : list Z * list note :=
  match results with
  | [] => ([], [])
  | result :: rest =>
      let '(blocked, notes) := collect_blocked rest in
      if negb (is_open result)
      then (port result :: blocked,
            if port result =? 25 then Port25Blocked :: notes else notes)
      else (blocked, notes)
  end.

Definition mem (x : Z) (l : list Z) : bool := existsb (Z.eqb x) l.

Definition analyze_isp_interference (hostname : string)
           (net : Z -> connect) (tool : tool_run) (p : probe)
           (d : dpi_probe) : ISPAnalysis :=
  let port_results := scan_smtp_ports net in
  let '(blocked_ports, notes1) := collect_blocked port_results in
  let recommendations1 :=
    if mem 25 blocked_ports
    then ["Use port 587 or 465 instead of port 25"] else [] in
  let network_path := traceroute hostname tool p in
  let notes2 :=
    if Qgtb (packet_loss network_path) 5
    then [HighPacketLoss (packet_loss network_path)] else [] in
  let notes3 :=
    if Qgtb (avg_rtt network_path) 200
    then [HighLatency (avg_rtt network_path)] else [] in
  let comcast :=
    truthy_str (isp_detected network_path)
    && contains "comcast" (lower (default "" (isp_detected network_path)))
  in
  let notes4 := if comcast then [ComcastDetected] else [] in
  let recommendations2 :=
    if comcast
    then ["Consider using VPN or alternative SMTP relay"] else [] in
  let dpi_detected := _detect_dpi_signatures d in
  let throttling_detected :=
    (1 <? len blocked_ports) || Qgtb (packet_loss network_path) 2 in
  {| isp_name := isp_detected network_path;
     suspicious_behavior := notes1 ++ notes2 ++ notes3 ++ notes4;
     blocked_ports := blocked_ports;
     throttling_detected := throttling_detected;
     dpi_detected := dpi_detected;
     connection_resets := 0;
     recommendations := recommendations1 ++ recommendations2 |}.

End Scope.

(** The global names of the module: its imports and its classes.  The
    builtins behind them bind no [is_timeout] either. *)
Definition module_scope : gmap string obj :=
  list_to_map
    [ ("socket", Module_ "socket");
      ("subprocess", Module_ "subprocess");
      ("time", Module_ "time");
      ("dns", Module_ "dns");
      ("List", Class_ "List");
      ("Dict", Class_ "Dict");
      ("Optional", Class_ "Optional");
      ("Tuple", Class_ "Tuple");
      ("dataclass", Function_ "dataclass");
      ("re", Module_ "re");
      ("DNSResult", Class_ "DNSResult");
      ("TracerouteHop", Class_ "TracerouteHop");
      ("NetworkPath", Class_ "NetworkPath");
      ("PortScanResult", Class_ "PortScanResult");
      ("ISPAnalysis", Class_ "ISPAnalysis");
      ("NetworkAnalyzer", Class_ "NetworkAnalyzer") ].

(** *** test_connection_stability *)

(** One [sock.connect] of the stability test: the time it took, or a
    [socket.error] with its message.  An exception of another class leaves
    the function and is not part of the model. *)
Inductive attempt :=
| Connected (connection_time : Q)
| SocketError (message : string).

(** The [results] dictionary, one field per key. *)
Record stability := {
  successful_connections : Z;
  failed_connections : Z;
  connection_times : list Q;
  reset_detected : bool;
  avg_connection_time : Q }.

Definition no_results : stability :=
  {| successful_connections := 0;
     failed_connections := 0;
     connection_times := [];
     reset_detected := false;
     avg_connection_time := 0 |}.

(** The body of [for i in range(test_count)]; the pause between two
    attempts changes nothing in [results]. *)
Definition stability_step (results : stability) (a : attempt) : stability :=
  match a with
  | Connected connection_time =>
      {| successful_connections := successful_connections results + 1;
         failed_connections := failed_connections results;
         connection_times := connection_times results ++ [connection_time];
         reset_detected := reset_detected results;
         avg_connection_time := avg_connection_time results |}
  | SocketError message =>
      {| successful_connections := successful_connections results;
         failed_connections := failed_connections results + 1;
         connection_times := connection_times results;
         reset_detected :=
           if contains "reset" (lower message) then true
           else reset_detected results;
         avg_connection_time := avg_connection_time results |}
  end.

(** [net i] is what the connect of iteration [i] does.  The average is
    the exact quotient; the float quotient of the code is this value when
    at most one attempt succeeded and a rounding of it otherwise. *)
Definition test_connection_stability (net : Z -> attempt) (duration : Z)
  : stability :=
  let test_count := duration / 5 in
  let results :=
    fold_left (fun results i => stability_step results (net i))
              (range test_count) no_results in
  match connection_times results with
  | [] => results
  | _ =>
      {| successful_connections := successful_connections results;
         failed_connections := failed_connections results;
         connection_times := connection_times results;
         reset_detected := reset_detected results;
         avg_connection_time :=
           (sum (connection_times results)
            / inject_Z (len (connection_times results)))%Q |}
  end.

End Analyzer.

(** ** network_monitor.py

    The monitor object is a record; a method is a function to the new
    record.  The background thread is the stream of [observe] steps: one
    step is one pass through the body of [for conn in connections].  The
    process handle is the process of the monitor itself, so its pid and name
    are fields read without failure.  Writing to the logger changes no
    attribute of the monitor and is left out. *)

Module Monitor.
Import Py.

(** [psutil]'s address pair; an absent address is the empty tuple,
    [None] here. *)
Record addr := { ip : string; port : Z }.

Inductive sock_type := SOCK_STREAM | SOCK_DGRAM | SOCK_OTHER (n : Z).

(** One row of [process.connections(kind='inet')]. *)
Record pconn := {
  fd : Z;
  family : Z;
  type_ : sock_type;
  laddr : option addr;
  raddr : option addr;
  status : string }.

Definition CONN_NONE : string := "NONE".

Record NetworkConnection := {
  timestamp : Q;
  local_addr : string;
  local_port : Z;
  remote_addr : string;
  remote_port : Z;
  protocol : string;
  conn_status : string;
  conn_process_name : string }.

Record NetworkStats := {
  total_connections : Z;
  smtp_connections : Z;
  imap_connections : Z;
  dns_queries : Z;
  other_connections : Z;
  suspicious_connections : Z;
  bytes_sent : Z;
  bytes_received : Z }.

Record NetworkMonitor := {
  pid : Z;
  process_name : string;
  monitoring : bool;
  connections : list NetworkConnection;
  stats : NetworkStats;
  known_connections : gset string;
  log_file_path : string }.

Definition suspicious_patterns : list string :=
  [ "telemetry"; "analytics"; "tracking"; "metrics"; "stats";
    "api.github.com"; "pypi.org" ].

Definition expected_services : list (Z * string) :=
  [ (25, "SMTP"); (587, "SMTP-STARTTLS"); (465, "SMTPS"); (993, "IMAPS");
    (143, "IMAP"); (53, "DNS"); (80, "HTTP"); (443, "HTTPS") ].

Definition mem (x : Z) (l : list Z) : bool := existsb (Z.eqb x) l.

Definition zero_stats : NetworkStats :=
  {| total_connections := 0; smtp_connections := 0; imap_connections := 0;
     dns_queries := 0; other_connections := 0; suspicious_connections := 0;
     bytes_sent := 0; bytes_received := 0 |}.

(** [__init__] *)
Definition init (pid : Z) (process_name log_file : string) : NetworkMonitor :=
  {| pid := pid;
     process_name := process_name;
     monitoring := false;
     connections := [];
     stats := zero_stats;
     known_connections := ∅;
     log_file_path := log_file |}.

Definition start_monitoring (m : NetworkMonitor) : NetworkMonitor :=
  if monitoring m then m
  else {| pid := pid m;
          process_name := process_name m;
          monitoring := true;
          connections := connections m;
          stats := stats m;
          known_connections := known_connections m;
          log_file_path := log_file_path m |}.

Definition stop_monitoring (m : NetworkMonitor) : NetworkMonitor :=
  if negb (monitoring m) then m
  else {| pid := pid m;
          process_name := process_name m;
          monitoring := false;
          connections := connections m;
          stats := stats m;
          known_connections := known_connections m;
          log_file_path := log_file_path m |}.

(** [str] of an address pair.  The host part is printed with [repr]; an
    address of the connection table is a numeric literal, whose [repr] is
    the text between single quotes. *)
Definition str_addr (a : option addr) : string :=
  match a with
  | None => "()"
  | Some a => "addr(ip='" +:+ ip a +:+ "', port=" +:+ pretty (port a) +:+ ")"
  end.

Definition conn_id (conn : pconn) : string :=
  str_addr (laddr conn) +:+ ":" +:+ str_addr (raddr conn) +:+ ":"
  +:+ status conn.

(** The watch list on the remote address. *)
Definition watch_pattern_hit (conn : NetworkConnection) : bool :=
  let remote_lower := lower (remote_addr conn) in
  existsb (fun pattern => contains pattern remote_lower) suspicious_patterns.

(** The rule on unexpected high ports. *)
Definition unexpected_high_port (conn : NetworkConnection) : bool :=
  if negb (mem (remote_port conn) (map fst expected_services))
  then (8000 <? remote_port conn)
       && negb (remote_port conn =? 8080)
       && negb (remote_port conn =? 8443)
  else false.

Definition _is_suspicious_connection (conn : NetworkConnection) : bool :=
  if watch_pattern_hit conn then true
  else if unexpected_high_port conn then true
  else false.

Definition smtp_class (remote_port : Z) : bool :=
  mem remote_port [25; 587; 465; 2525].
Definition imap_class (remote_port : Z) : bool :=
  mem remote_port [993; 143].
Definition dns_class (remote_port : Z) : bool := remote_port =? 53.

Definition _categorize_connection (conn : NetworkConnection)
           (remote_port : Z) (s : NetworkStats) : NetworkStats :=
  if smtp_class remote_port then
    {| total_connections := total_connections s;
       smtp_connections := smtp_connections s + 1;
       imap_connections := imap_connections s;
       dns_queries := dns_queries s;
       other_connections := other_connections s;
       suspicious_connections := suspicious_connections s;
       bytes_sent := bytes_sent s;
       bytes_received := bytes_received s |}
  else if imap_class remote_port then
    {| total_connections := total_connections s;
       smtp_connections := smtp_connections s;
       imap_connections := imap_connections s + 1;
       dns_queries := dns_queries s;
       other_connections := other_connections s;
       suspicious_connections := suspicious_connections s;
       bytes_sent := bytes_sent s;
       bytes_received := bytes_received s |}
  else if dns_class remote_port then
    {| total_connections := total_connections s;
       smtp_connections := smtp_connections s;
       imap_connections := imap_connections s;
       dns_queries := dns_queries s + 1;
       other_connections := other_connections s;
       suspicious_connections := suspicious_connections s;
       bytes_sent := bytes_sent s;
       bytes_received := bytes_received s |}
  else
    {| total_connections := total_connections s;
       smtp_connections := smtp_connections s;
       imap_connections := imap_connections s;
       dns_queries := dns_queries s;
       other_connections := other_connections s + 1;
       suspicious_connections :=
         if _is_suspicious_connection conn
         then suspicious_connections s + 1
         else suspicious_connections s;
       bytes_sent := bytes_sent s;
       bytes_received := bytes_received s |}.

Definition bump_total (s : NetworkStats) : NetworkStats :=
  {| total_connections := total_connections s + 1;
     smtp_connections := smtp_connections s;
     imap_connections := imap_connections s;
     dns_queries := dns_queries s;
     other_connections := other_connections s;
     suspicious_connections := suspicious_connections s;
     bytes_sent := bytes_sent s;
     bytes_received := bytes_received s |}.

(** The record built for a row of the connection table. *)
Definition make_record (current_time : Q) (m : NetworkMonitor)
           (conn : pconn) : NetworkConnection :=
  {| timestamp := current_time;
     local_addr := match laddr conn with Some a => ip a | None => "unknown" end;
     local_port := match laddr conn with Some a => port a | None => 0 end;
     remote_addr := match raddr conn with Some a => ip a | None => "unknown" end;
     remote_port := match raddr conn with Some a => port a | None => 0 end;
     protocol := match type_ conn with SOCK_STREAM => "TCP" | _ => "UDP" end;
     conn_status := status conn;
     conn_process_name := process_name m |}.

(** The body of [for conn in connections]. *)
Definition observe (current_time : Q) (conn : pconn) (m : NetworkMonitor)
  : NetworkMonitor :=
  if String.eqb (status conn) CONN_NONE then m
  else if decide (conn_id conn ∈ known_connections m) then m
  else
    let net_conn := make_record current_time m conn in
    {| pid := pid m;
       process_name := process_name m;
       monitoring := monitoring m;
       connections := connections m ++ [net_conn];
       stats := _categorize_connection net_conn (remote_port net_conn)
                  (bump_total (stats m));
       known_connections := {[ conn_id conn ]} ∪ known_connections m;
       log_file_path := log_file_path m |}.

(** One iteration of [while self.monitoring]. *)
Definition tick (current_time : Q) (conns : list pconn) (m : NetworkMonitor)
  : NetworkMonitor :=
  fold_left (fun m conn => observe current_time conn m) conns m.

(** The states of a monitor: built by [__init__], then any sequence of
    calls of [start_monitoring] and [stop_monitoring] and of steps of the
    loop.  A step is not tied to the flag: the iteration under way when
    [stop_monitoring] clears it still runs to its end. *)
Inductive reachable : NetworkMonitor -> Prop :=
| reach_init pid name log_file : reachable (init pid name log_file)
| reach_start m : reachable m -> reachable (start_monitoring m)
| reach_stop m : reachable m -> reachable (stop_monitoring m)
| reach_observe m t conn : reachable m -> reachable (observe t conn m).

(** The same steps as data, to run a given history. *)
Inductive event :=
| Start
| Stop
| Observe (t : Q) (conn : pconn).

Definition apply_event (m : NetworkMonitor) (e : event) : NetworkMonitor :=
  match e with
  | Start => start_monitoring m
  | Stop => stop_monitoring m
  | Observe t conn => observe t conn m
  end.

Definition run_events (history : list event) (m : NetworkMonitor)
  : NetworkMonitor :=
  fold_left apply_event history m.

(** The last branch of [_categorize_connection]. *)
Definition other_class (remote_port : Z) : bool :=
  negb (smtp_class remote_port) && negb (imap_class remote_port)
  && negb (dns_class remote_port).

(** No counter of [s'] is below the one of [s]. *)
Definition stats_le (s s' : NetworkStats) : Prop :=
  total_connections s <= total_connections s'
  /\ smtp_connections s <= smtp_connections s'
  /\ imap_connections s <= imap_connections s'
  /\ dns_queries s <= dns_queries s'
  /\ other_connections s <= other_connections s'
  /\ suspicious_connections s <= suspicious_connections s'.

(** The number of records whose remote port is of class [f]. *)
Definition count_class (f : Z -> bool) (l : list NetworkConnection) : Z :=
  Z.of_nat (length (List.filter (fun r => f (remote_port r)) l)).

(** The records of the other class that the suspicion predicate flags:
    those for which [_categorize_connection] adds to the suspicious
    counter. *)
Definition counted_suspicious (l : list NetworkConnection) : Z :=
  Z.of_nat (length (List.filter
    (fun r => other_class (remote_port r) && _is_suspicious_connection r) l)).

Definition get_smtp_connections (m : NetworkMonitor)
  : list NetworkConnection :=
  List.filter (fun conn => smtp_class (remote_port conn)) (connections m).

Definition get_imap_connections (m : NetworkMonitor)
  : list NetworkConnection :=
  List.filter (fun conn => imap_class (remote_port conn)) (connections m).

Definition get_suspicious_connections (m : NetworkMonitor)
  : list NetworkConnection :=
  List.filter _is_suspicious_connection (connections m).

(** The records of the smtp, imap and dns classes that the suspicion
    predicate flags: [_categorize_connection] does not ask the predicate
    about them. *)
Definition uncounted_suspicious (l : list NetworkConnection) : Z :=
  Z.of_nat (length (List.filter
    (fun r => negb (other_class (remote_port r))
              && _is_suspicious_connection r) l)).

Definition get_recent_connections (limit : Z) (m : NetworkMonitor)
  : list NetworkConnection :=
  match connections m with
  | [] => []
  | _ => slice_from (- limit) (connections m)
  end.

Section Report.

(** [time.strftime('%H:%M:%S', time.localtime(t))]: depends on the time
    zone of the host. *)
Variable hms : Q -> string.

Definition nl : string := String "010"%char "".

(** [NetworkConnection.__str__] *)
Definition conn_str (c : NetworkConnection) : string :=
  hms (timestamp c) +:+ " " +:+ protocol c +:+ " "
  +:+ local_addr c +:+ ":" +:+ pretty (local_port c) +:+ " -> "
  +:+ remote_addr c +:+ ":" +:+ pretty (remote_port c)
  +:+ " [" +:+ conn_status c +:+ "]".

Definition write_conns (l : list NetworkConnection) : list string :=
  map (fun conn => conn_str conn +:+ nl) l.

(** [export_report]: the arguments of the successive [f.write] calls;
    [generated] is the time stamp of the report. *)
Definition export_report (generated : string) (m : NetworkMonitor)
  : list string :=
  let email_conns :=
    (get_smtp_connections m ++ get_imap_connections m)%list in
  let suspicious := get_suspicious_connections m in
  ([ "=== EMAIL INVESTIGATION TOOL - NETWORK MONITORING REPORT ===" +:+ nl;
    "Generated: " +:+ generated +:+ nl;
    "Process PID: " +:+ pretty (pid m) +:+ nl;
    "Log File: " +:+ log_file_path m +:+ nl +:+ nl;
    "=== STATISTICS ===" +:+ nl;
    "Total connections: " +:+ pretty (total_connections (stats m)) +:+ nl;
    "SMTP connections: " +:+ pretty (smtp_connections (stats m)) +:+ nl;
    "IMAP connections: " +:+ pretty (imap_connections (stats m)) +:+ nl;
    "DNS queries: " +:+ pretty (dns_queries (stats m)) +:+ nl;
    "Other connections: " +:+ pretty (other_connections (stats m)) +:+ nl;
    "Suspicious connections: "
      +:+ pretty (suspicious_connections (stats m)) +:+ nl +:+ nl;
    "=== EMAIL SERVER CONNECTIONS ===" +:+ nl ]
  ++ write_conns email_conns
  ++ (match email_conns with
      | [] => ["No email server connections detected." +:+ nl]
      | _ => []
      end)
  ++ [ nl +:+ "=== SUSPICIOUS CONNECTIONS ===" +:+ nl ]
  ++ write_conns suspicious
  ++ (match suspicious with
      | [] => ["No suspicious connections detected." +:+ nl]
      | _ => []
      end)
  ++ [ nl +:+ "=== ALL CONNECTIONS ===" +:+ nl ]
  ++ write_conns (connections m))%list.

(** The text of the file written. *)
Definition report_text (generated : string) (m : NetworkMonitor) : string :=
  String.concat "" (export_report generated m).

End Report.

(** Reading a report back: its lines, and the lines of a section, from
    the line after the title to the next title. *)
Definition report_lines (text : string) : list string :=
  split_on "010"%char text.

Definition is_title (line : string) : bool :=
  starts_with (chars "=== ") (chars line).

Fixpoint until_title (lines : list string) : list string :=
  match lines with
  | [] => []
  | line :: rest => if is_title line then [] else line :: until_title rest
  end.

Fixpoint section (title : string) (lines : list string) : option (list string) :=
  match lines with
  | [] => None
  | line :: rest =>
      if String.eqb line ("=== " +:+ title +:+ " ===")
      then Some (until_title rest)
      else section title rest
  end.

(** A line that says nothing was detected. *)
Definition is_placeholder (line : string) : bool :=
  starts_with (chars "No ") (chars line) && contains "detected" line.

(** The titles of a report, in the order they come. *)
Definition titles (lines : list string) : list string :=
  List.filter is_title lines.

End Monitor.

(** ** main.py: what [run_network_analysis] reports

    The console lines are values of a type with one constructor per
    message; the numbers a message prints are its arguments. *)

Module Main.
Import Py Analyzer.

Inductive dns_message :=
| Resolved (first_ip : string) (response_time : Q)
| ResolutionFailed.

Definition report_dns (r : DNSResult) : dns_message :=
  match ip_addresses r with
  | first_ip :: _ => Resolved first_ip (dns_response_time r)
  | [] => ResolutionFailed
  end.

Inductive path_message :=
| Traced (hop_count : Z) (avg : Q)
| ConnectivityConfirmed (avg : Q)
| PathUnavailable.

Definition report_path (network_path : NetworkPath) : path_message :=
  match hops network_path with
  | [] => PathUnavailable
  | _ =>
      if 1 <? len (hops network_path)
      then Traced (len (hops network_path)) (avg_rtt network_path)
      else ConnectivityConfirmed (avg_rtt network_path)
  end.

(** The two lists printed after the port scan. *)
Definition open_ports (port_results : list PortScanResult) : list string :=
  map (fun p => pretty (port p)) (List.filter is_open port_results).

Definition blocked_ports_shown (port_results : list PortScanResult)
  : list string :=
  map (fun p => pretty (port p))
      (List.filter (fun p => negb (is_open p)) port_results).

(** The issues listed under the count: the first three. *)
Definition issues_shown (isp_analysis : ISPAnalysis) : list note :=
  take 3 (suspicious_behavior isp_analysis).

End Main.

(** ** The quantities the specification names *)

Module Spec.
Import Py Analyzer.

(** Arithmetic mean, 0 for no sample. *)
Definition mean (l : list Q) : Q :=
  match l with
  | [] => 0%Q
  | _ => (fold_right Qplus 0 l / inject_Z (Z.of_nat (length l)))%Q
  end.

Definition timeout_hops (hops : list TracerouteHop) : Z :=
  Z.of_nat (length (List.filter is_timeout hops)).

Definition non_timeout_times (hops : list TracerouteHop) : list Q :=
  map response_time (List.filter (fun h => negb (is_timeout h)) hops).

(** A connect probe failed: it raised, or [connect_ex] gave an error
    code. *)
Definition probe_failed (c : connect) : bool :=
  match c with
  | ConnectRaised _ => true
  | ConnectEx result _ => negb (result =? 0)
  end.

Definition failed_ports (net : Z -> connect) : Z :=
  Z.of_nat (length (List.filter (fun port => probe_failed (net port)) smtp_ports)).

(** A line of the tracing tool that the parser reads as a numbered line:
    not blank, at least two tokens, the first one an integer. *)
Definition numbered_line (line : string) : bool :=
  negb (String.eqb (strip line) "")
  && (2 <=? Z.of_nat (length (split (strip line))))
  && bool_decide (is_Some (int (default "" (head (split (strip line)))))).

Definition timeout_line (line : string) : bool := 3 <=? count "*" line.

(** The line of the example, and an output of the tool that holds it. *)
Definition gw1_line : string := " 1  gw1 (93.184.216.34)  12.3 ms".

Definition gw1_output : string :=
  "traceroute to example.com (93.184.216.34), 15 hops max"
  +:+ String "010"%char gw1_line +:+ String "010"%char "".

Definition start_state : loop_state :=
  {| ls_hops := []; consecutive_timeouts := 0 |}.

(** The carrier names [_detect_isp_from_hops] can answer. *)
Definition carrier_names : list string :=
  ["COMCAST"; "VERIZON"; "ATT"; "COX"; "CHARTER"; "CENTURYLINK"].

(** A hop whose host name, in lower case, holds a pattern of the table. *)
Definition hop_matches (h : TracerouteHop) : bool :=
  truthy_str (hostname h)
  && existsb
       (fun entry =>
          existsb (fun pattern =>
                     contains pattern (lower (default "" (hostname h))))
                  (snd entry))
       isp_patterns.

(** The attempt of iteration [i] failed with a message that holds
    [reset], in any case of letters. *)
Definition reset_error (a : attempt) : bool :=
  match a with
  | SocketError message => contains "reset" (lower message)
  | Connected _ => false
  end.

Definition is_connected (a : attempt) : bool :=
  match a with
  | Connected _ => true
  | SocketError _ => false
  end.

End Spec.

(** ** Sample states of the monitor *)

Module Samples.
Import Py Monitor.

(** An established TCP connection of the process to [remote_ip] on
    [remote_port]. *)
Definition sample_conn (remote_ip : string) (remote_port : Z) : pconn :=
  {| fd := 3; family := 2; type_ := SOCK_STREAM;
     laddr := Some {| ip := "10.0.0.2"; port := 50000 |};
     raddr := Some {| ip := remote_ip; port := remote_port |};
     status := "ESTABLISHED" |}.

(** A monitor as [__init__] leaves it. *)
Definition fresh : NetworkMonitor := init 4242 "python3" "logs/network.log".

(** A monitor after one session that saw one connection to port 9999. *)
Definition used : NetworkMonitor :=
  stop_monitoring
    (observe 1 (sample_conn "93.184.216.34" 9999) (start_monitoring fresh)).

(** The clock of the report: every time prints as midnight. *)
Definition midnight (t : Q) : string := "00:00:00".

End Samples.

(** ** Properties of the analyzer *)

Section AnalyzerFacts.
Import Py Re Analyzer Spec.

(** *** resolve_dns *)

(** C6: [resolve_dns] returns a result for every host name and every
    behaviour of the resolver.  A lookup that fails leaves its own list
    empty and the other list as answered; when both fail the lists are
    empty and [authoritative] is false; [authoritative] holds exactly when
    an address was resolved. *)
Theorem C6_resolve_dns_never_raises
  (rs : resolver) (start_time now now' : Q)
  (cache : gmap string DNSResult) (host : string) :
  exists r cache',
    resolve_dns rs start_time now now' cache host = inr (r, cache')
    /\ (forall e, resolve_A rs host = inl e -> ip_addresses r = [])
    /\ (forall l, resolve_A rs host = inr l -> ip_addresses r = l)
    /\ (forall e, resolve_MX rs host = inl e -> mx_records r = [])
    /\ (forall l, resolve_MX rs host = inr l -> mx_records r = l)
    /\ (forall e e', resolve_A rs host = inl e ->
                     resolve_MX rs host = inl e' ->
          ip_addresses r = [] /\ mx_records r = []
          /\ authoritative r = false)
    /\ (authoritative r = true <-> ip_addresses r <> []).
Proof.
  unfold resolve_dns, try_except, bind, ret.
  destruct (resolve_A rs host) as [ea | la] eqn:HA;
    destruct (resolve_MX rs host) as [em | lm] eqn:HM;
    eexists; eexists; (split; [reflexivity |]); cbn;
    repeat split; intros; try congruence; try discriminate;
    try (destruct la; cbn in *;
         first [congruence | done | apply Z.ltb_lt; lia]).
Qed.

(** *** The parsing loop *)

Lemma module_scope_is_timeout : module_scope !! "is_timeout" = None.
Proof. vm_compute. reflexivity. Qed.

(** A pass through the loop body leaves the hops alone unless the scope
    binds [is_timeout]. *)
Lemma loop_body_unbound (scope : gmap string obj) line st :
  scope !! "is_timeout" = None ->
  ls_hops (fst (loop_body scope line st)) = ls_hops st.
Proof.
  intros Hs. unfold loop_body, load_name. rewrite Hs.
  repeat (case_match; cbn; try reflexivity).
Qed.

Lemma run_loop_unbound (scope : gmap string obj) lines st :
  scope !! "is_timeout" = None ->
  ls_hops (fst (run_loop scope lines st)) = ls_hops st.
Proof.
  intros Hs. revert st. induction lines as [| line rest IH]; intros st.
  - reflexivity.
  - cbn. pose proof (loop_body_unbound scope line st Hs) as Hb.
    destruct (loop_body scope line st) as [st' c]. cbn in Hb.
    destruct c; cbn; try assumption.
    rewrite IH. assumption.
Qed.

(** With the names the module binds, the parsing loop appends no hop,
    whatever the tool printed. *)
Lemma parse_hops_module_scope tool : parse_hops module_scope tool = [].
Proof.
  destruct tool as [e | stdout]; unfold parse_hops; [reflexivity |].
  exact (run_loop_unbound module_scope (output_lines stdout)
           {| ls_hops := []; consecutive_timeouts := 0 |}
           module_scope_is_timeout).
Qed.

(** Once the loop has ended by [break] or by an exception, the lines that
    follow are not read. *)
Lemma run_loop_stops (scope : gmap string obj) pre rest st :
  snd (run_loop scope pre st) <> Next ->
  run_loop scope (pre ++ rest) st = run_loop scope pre st.
Proof.
  revert st. induction pre as [| line pre IH]; intros st Hc.
  - cbn in Hc. congruence.
  - cbn in *. destruct (loop_body scope line st) as [st' c].
    destruct c; auto.
Qed.

Lemma unnumbered_line_body (scope : gmap string obj) line st :
  numbered_line line = false -> loop_body scope line st = (st, Next).
Proof.
  unfold numbered_line, loop_body. intros H.
  destruct (String.eqb (strip line) ""); [reflexivity |].
  destruct (2 <=? Z.of_nat (length (split (strip line)))); [| reflexivity].
  cbn in H. apply bool_decide_eq_false in H.
  destruct (int _) as [n |]; [| reflexivity].
  exfalso. apply H. eauto.
Qed.

Lemma timeout_line_body (scope : gmap string obj) line st :
  numbered_line line = true -> timeout_line line = true ->
  loop_body scope line st =
    ({| ls_hops := ls_hops st;
        consecutive_timeouts := consecutive_timeouts st + 1 |},
     if 3 <=? consecutive_timeouts st + 1 then Broke else Next).
Proof.
  unfold numbered_line, timeout_line. intros H Ht.
  apply andb_prop in H as [H H3]. apply andb_prop in H as [H1 H2].
  apply bool_decide_eq_true in H3 as [n Hn].
  unfold loop_body. apply negb_true_iff in H1. rewrite H1, H2, Hn, Ht.
  destruct (3 <=? consecutive_timeouts st + 1); reflexivity.
Qed.

Lemma reset_line_body (scope : gmap string obj) line st :
  numbered_line line = true -> timeout_line line = false ->
  consecutive_timeouts (fst (loop_body scope line st)) = 0.
Proof.
  unfold numbered_line, timeout_line. intros H Ht.
  apply andb_prop in H as [H H3]. apply andb_prop in H as [H1 H2].
  apply bool_decide_eq_true in H3 as [n Hn].
  unfold loop_body. apply negb_true_iff in H1. rewrite H1, H2, Hn, Ht.
  repeat (case_match; cbn; try reflexivity).
Qed.

(** C1: on the line of the example the two patterns find the address, the
    host name and the time, and the loop body then reads the unbound name
    [is_timeout]: the pass ends by [NameError], the handlers of [traceroute]
    swallow it, and no hop is emitted for the line.  Were the name bound
    to [False], the hop of the claim would be appended. *)
Theorem C1_parsed_hop_is_dropped :
  extract_ip gw1_line = (Some "93.184.216.34", Some "gw1")
  /\ (extract_time gw1_line == 12.3)%Q
  /\ loop_body module_scope gw1_line start_state
     = (start_state, Raised (NameError "is_timeout"))
  /\ parse_hops module_scope (inr gw1_output) = []
  /\ (forall target p,
        hops (traceroute module_scope target (inr gw1_output) p)
        = fallback_hops target p)
  /\ exists hop,
       parse_hops {[ "is_timeout" := Bool false ]} (inr gw1_output) = [hop]
       /\ ip_address hop = "93.184.216.34"
       /\ hostname hop = Some "gw1"
       /\ (response_time hop == 12.3)%Q.
Proof.
  split; [vm_compute; reflexivity |].
  split; [vm_compute; reflexivity |].
  split; [vm_compute; reflexivity |].
  split; [apply parse_hops_module_scope |].
  split.
  - intros target p. unfold traceroute. rewrite parse_hops_module_scope.
    reflexivity.
  - eexists. split; [vm_compute; reflexivity |].
    repeat split; vm_compute; reflexivity.
Qed.

End AnalyzerFacts.

Section AnalyzerRules.
Import Py Re Analyzer Spec.

(** *** The timeout counter *)

(** C5, as stated, fails on lines without a hop number: such a line holds
    three [*] and the counter stays where it was, three of them in a row do
    not stop the loop, and such a line without [*] does not reset the
    counter. *)
Lemma C5_unnumbered_lines_leave_counter :
  let waiting := {| ls_hops := []; consecutive_timeouts := 1 |} in
  timeout_line "    * * *" = true
  /\ ~ (consecutive_timeouts
          (fst (loop_body module_scope "    * * *" waiting))
        = consecutive_timeouts waiting + 1)
  /\ run_loop module_scope ["    * * *"; "    * * *"; "    * * *"] start_state
     = (start_state, Next)
  /\ timeout_line "    10.0.0.1  5 ms" = false
  /\ ~ (consecutive_timeouts
          (fst (loop_body module_scope "    10.0.0.1  5 ms" waiting)) = 0).
Proof.
  cbv zeta. repeat split; try (vm_compute; reflexivity);
    vm_compute; discriminate.
Qed.

(** C5, amended: a numbered line with three [*] or more adds one to the
    counter and appends no hop; when that makes the counter reach 3 the loop
    ends there and no later line is read; three such lines in a row from a
    counter at 0 end it; a numbered line with fewer [*] leaves the counter
    at 0; a line that is not numbered changes nothing. *)
Theorem C5_numbered_lines_drive_counter
  (scope : gmap string obj) (line : string) (rest : list string)
  (st : loop_state) :
  numbered_line line = true ->
  (timeout_line line = true ->
     fst (loop_body scope line st)
     = {| ls_hops := ls_hops st;
          consecutive_timeouts := consecutive_timeouts st + 1 |}
     /\ (3 <= consecutive_timeouts st + 1 ->
         run_loop scope (line :: rest) st
         = ({| ls_hops := ls_hops st;
               consecutive_timeouts := consecutive_timeouts st + 1 |},
            Broke))
     /\ (forall l2 l3,
           numbered_line l2 = true -> timeout_line l2 = true ->
           numbered_line l3 = true -> timeout_line l3 = true ->
           consecutive_timeouts st = 0 ->
           run_loop scope (line :: l2 :: l3 :: rest) st
           = ({| ls_hops := ls_hops st; consecutive_timeouts := 3 |}, Broke)))
  /\ (timeout_line line = false ->
      consecutive_timeouts (fst (loop_body scope line st)) = 0)
  /\ (forall other,
        numbered_line other = false -> loop_body scope other st = (st, Next)).
Proof.
  intros Hn. split; [| split].
  - intros Ht. pose proof (timeout_line_body scope line st Hn Ht) as Hb.
    split; [rewrite Hb; reflexivity |]. split.
    + intros Hge. cbn. rewrite Hb.
      apply Z.leb_le in Hge. rewrite Hge. reflexivity.
    + intros l2 l3 Hn2 Ht2 Hn3 Ht3 H0. cbn. rewrite Hb, H0. cbn.
      rewrite (timeout_line_body scope l2 _ Hn2 Ht2). cbn.
      rewrite (timeout_line_body scope l3 _ Hn3 Ht3). cbn. reflexivity.
  - intros Ht. apply reset_line_body; assumption.
  - intros other Ho. apply unnumbered_line_body; assumption.
Qed.

Lemma C5_numbered_lines_drive_counter_witness :
  let st := {| ls_hops := []; consecutive_timeouts := 2 |} in
  let rest := [" 4  10.0.0.9  3.1 ms"] in
  fst (loop_body module_scope " 3  * * *" st)
  = {| ls_hops := []; consecutive_timeouts := 3 |}
  /\ run_loop module_scope (" 3  * * *" :: rest) st
     = ({| ls_hops := []; consecutive_timeouts := 3 |}, Broke).
Proof.
  intros st rest.
  destruct (C5_numbered_lines_drive_counter module_scope " 3  * * *" rest st)
    as (Htimeout & _ & _).
  { vm_compute. reflexivity. }
  destruct Htimeout as (Hstep & Hstop & _).
  { vm_compute. reflexivity. }
  split; [exact Hstep |].
  apply Hstop. vm_compute. discriminate.
Defined.

(** *** Statistics of a path *)

Lemma sum_fold_right (l : list Q) (a : Q) :
  (fold_left Qplus l a == a + fold_right Qplus 0 l)%Q.
Proof.
  revert a. induction l as [| x l IH]; intros a; cbn.
  - ring.
  - rewrite IH. ring.
Qed.

Lemma filter_split_length {A} (f : A -> bool) (l : list A) :
  (length (List.filter f l)
   + length (List.filter (fun x => negb (f x)) l) = length l)%nat.
Proof.
  induction l as [| x l IH]; cbn; [reflexivity |].
  destruct (f x); cbn; lia.
Qed.

Lemma timeout_count (hs : list TracerouteHop) :
  len hs - len (valid_hops hs) = timeout_hops hs.
Proof.
  unfold len, valid_hops, timeout_hops.
  pose proof (filter_split_length is_timeout hs). lia.
Qed.

Lemma sum_spec (l : list Q) : (sum l == fold_right Qplus 0 l)%Q.
Proof. unfold sum. rewrite sum_fold_right. ring. Qed.

Lemma compute_avg_rtt_mean (hs : list TracerouteHop) :
  (compute_avg_rtt hs == mean (non_timeout_times hs))%Q.
Proof.
  unfold compute_avg_rtt, mean, non_timeout_times, valid_hops, len.
  destruct (List.filter _ hs) as [| h l]; [reflexivity |].
  rewrite sum_spec. cbn [map length]. rewrite length_map. reflexivity.
Qed.

Lemma ratio_bounds (t n : Z) :
  0 <= t <= n -> 0 < n ->
  (0 <= inject_Z t / inject_Z n * 100 <= 100)%Q.
Proof.
  intros Ht Hn.
  assert (Hpos : (0 < inject_Z n)%Q).
  { change 0%Q with (inject_Z 0). rewrite <- Zlt_Qlt. assumption. }
  assert (Hlo : (0 <= inject_Z t / inject_Z n)%Q).
  { apply Qle_shift_div_l; [assumption |]. rewrite Qmult_0_l.
    change 0%Q with (inject_Z 0). rewrite <- Zle_Qle. lia. }
  assert (Hhi : (inject_Z t / inject_Z n <= 1)%Q).
  { apply Qle_shift_div_r; [assumption |]. rewrite Qmult_1_l.
    rewrite <- Zle_Qle. lia. }
  split.
  - apply Qmult_le_0_compat; [assumption | discriminate].
  - apply Qle_trans with (1 * 100)%Q; [| discriminate].
    apply Qmult_le_compat_r; [assumption | discriminate].
Qed.

Lemma compute_packet_loss_ratio (hs : list TracerouteHop) :
  (compute_packet_loss hs ==
   if len hs =? 0 then 0
   else inject_Z (timeout_hops hs) / inject_Z (len hs) * 100)%Q.
Proof.
  unfold compute_packet_loss. destruct hs as [| h l]; [reflexivity |].
  rewrite timeout_count. reflexivity.
Qed.

Lemma compute_packet_loss_bounds (hs : list TracerouteHop) :
  (0 <= compute_packet_loss hs <= 100)%Q.
Proof.
  unfold compute_packet_loss. destruct hs as [| h l].
  - split; discriminate.
  - rewrite timeout_count. apply ratio_bounds.
    + unfold timeout_hops, len.
      pose proof (filter_split_length is_timeout (h :: l)). lia.
    + unfold len. cbn [length]. lia.
Qed.

(** C4: whatever the tool printed and whatever the fallback probe did, the
    path [traceroute] returns has [avg_rtt] equal to the mean of the times
    of its non-timeout hops (0 when there is none) and [packet_loss] equal
    to timeout hops over total hops times 100, which lies between 0 and 100
    and is 0 when there is no hop. *)
Theorem C4_path_statistics
  (scope : gmap string obj) (target : string) (tool : tool_run) (p : probe) :
  let path := traceroute scope target tool p in
  total_hops path = len (hops path)
  /\ (avg_rtt path == mean (non_timeout_times (hops path)))%Q
  /\ (non_timeout_times (hops path) = [] -> (avg_rtt path == 0)%Q)
  /\ (packet_loss path ==
      if total_hops path =? 0 then 0
      else inject_Z (timeout_hops (hops path))
           / inject_Z (total_hops path) * 100)%Q
  /\ (0 <= packet_loss path <= 100)%Q
  /\ (total_hops path = 0 -> (packet_loss path == 0)%Q).
Proof.
  cbv zeta. unfold traceroute. cbn [total_hops avg_rtt packet_loss hops].
  set (hs := match parse_hops scope tool with
             | [] => fallback_hops target p
             | _ => parse_hops scope tool
             end).
  split; [reflexivity |].
  split; [apply compute_avg_rtt_mean |].
  split.
  { intros Hn. rewrite compute_avg_rtt_mean, Hn. reflexivity. }
  split; [apply compute_packet_loss_ratio |].
  split; [apply compute_packet_loss_bounds |].
  intros H0. rewrite compute_packet_loss_ratio, H0. reflexivity.
Qed.

(** *** The throttling rule *)

Lemma collect_blocked_failed (net : Z -> connect) (ports : list Z) :
  fst (collect_blocked (map (scan_port net) ports))
  = List.filter (fun port => probe_failed (net port)) ports.
Proof.
  induction ports as [| q ports IH]; [reflexivity |].
  cbn [map collect_blocked List.filter].
  destruct (collect_blocked (map (scan_port net) ports)) as [blocked notes].
  cbn [fst] in IH. subst blocked.
  unfold scan_port, probe_failed.
  destruct (net q) as [e | result elapsed]; cbn; [reflexivity |].
  destruct (result =? 0); reflexivity.
Qed.

Lemma Qgtb_lt (a b : Q) : Qgtb a b = true <-> (b < a)%Q.
Proof.
  unfold Qgtb. rewrite Qlt_alt.
  destruct (b ?= a)%Q; split; intros; congruence.
Qed.

(** C7: [throttling_detected] holds exactly when more than one port of
    25, 465, 587, 2525 failed its connect probe, or the packet loss of the
    path traced for this call exceeds 2. *)
Theorem C7_throttling_rule
  (scope : gmap string obj) (host : string) (net : Z -> connect)
  (tool : tool_run) (p : probe) (d : dpi_probe) :
  smtp_ports = [25; 465; 587; 2525]
  /\ (throttling_detected
        (analyze_isp_interference scope host net tool p d) = true
      <-> 1 < failed_ports net
          \/ (2 < packet_loss (traceroute scope host tool p))%Q).
Proof.
  split; [reflexivity |].
  unfold analyze_isp_interference, scan_smtp_ports, failed_ports.
  pose proof (collect_blocked_failed net smtp_ports) as Hb.
  destruct (collect_blocked (map (scan_port net) smtp_ports))
    as [blocked notes].
  cbn [fst] in Hb. subst blocked. cbn [throttling_detected].
  rewrite orb_true_iff, Z.ltb_lt, Qgtb_lt. unfold len. reflexivity.
Qed.

End AnalyzerRules.

(** ** Properties of the monitor *)

Section MonitorFacts.
Import Py Monitor Samples.

(** *** start_monitoring *)

(** C2, as stated, fails: after a session that logged one connection, the
    idle monitor is started again and the connection log, the counters and
    the dedup set are those of the session before. *)
Lemma C2_restart_keeps_previous_session :
  let after := start_monitoring used in
  reachable used
  /\ monitoring used = false
  /\ monitoring after = true
  /\ connections after <> []
  /\ stats after <> zero_stats
  /\ total_connections (stats after) = 1
  /\ known_connections after <> ∅
  /\ observe 2 (sample_conn "93.184.216.34" 9999) after = after.
Proof.
  cbv zeta. split; [repeat constructor |].
  split; [reflexivity |]. split; [reflexivity |].
  split; [vm_compute; discriminate |].
  split; [vm_compute; discriminate |].
  split; [reflexivity |].
  split.
  - intros H.
    assert (Hin : conn_id (sample_conn "93.184.216.34" 9999)
                  ∈ known_connections (start_monitoring used)).
    { vm_compute known_connections. set_solver. }
    rewrite H in Hin. set_solver.
  - vm_compute. reflexivity.
Qed.

(** C2, amended: [start_monitoring] on an idle monitor sets the running
    flag and changes nothing else: the connection log, every counter and
    the dedup set are what they were, and they are empty or zero only as
    [__init__] builds them. *)
Theorem C2_start_keeps_state (m : NetworkMonitor) :
  monitoring m = false ->
  monitoring (start_monitoring m) = true
  /\ connections (start_monitoring m) = connections m
  /\ stats (start_monitoring m) = stats m
  /\ known_connections (start_monitoring m) = known_connections m
  /\ forall pid name log_file,
       connections (init pid name log_file) = []
       /\ stats (init pid name log_file) = zero_stats
       /\ known_connections (init pid name log_file) = ∅.
Proof.
  intros Hidle. unfold start_monitoring. rewrite Hidle. cbn.
  repeat split.
Qed.

Lemma C2_start_keeps_state_witness :
  monitoring (start_monitoring used) = true
  /\ connections (start_monitoring used) = connections used
  /\ stats (start_monitoring used) = stats used
  /\ known_connections (start_monitoring used) = known_connections used
  /\ forall pid name log_file,
       connections (init pid name log_file) = []
       /\ stats (init pid name log_file) = zero_stats
       /\ known_connections (init pid name log_file) = ∅.
Proof.
  apply (C2_start_keeps_state used). reflexivity.
Defined.

End MonitorFacts.

Section MonitorFacts2.
Import Py Monitor Samples.

(** *** export_report *)

(** C3, as stated, fails on the section of all connections: for a monitor
    without logged connection the report has its five titles in order, the
    sections of email and suspicious connections hold their placeholder
    line, and the section of all connections holds no placeholder. *)
Lemma C3_all_connections_without_placeholder :
  let lines :=
    report_lines (report_text midnight "2024-01-01 00:00:00" fresh) in
  connections fresh = []
  /\ titles lines
     = [ "=== EMAIL INVESTIGATION TOOL - NETWORK MONITORING REPORT ===";
         "=== STATISTICS ===";
         "=== EMAIL SERVER CONNECTIONS ===";
         "=== SUSPICIOUS CONNECTIONS ===";
         "=== ALL CONNECTIONS ===" ]
  /\ section "EMAIL SERVER CONNECTIONS" lines
     = Some ["No email server connections detected."; ""]
  /\ section "SUSPICIOUS CONNECTIONS" lines
     = Some ["No suspicious connections detected."; ""]
  /\ section "ALL CONNECTIONS" lines = Some [""]
  /\ ~ (exists body,
          section "ALL CONNECTIONS" lines = Some body
          /\ existsb is_placeholder body = true).
Proof.
  cbv zeta. repeat split; try (vm_compute; reflexivity).
  intros (body & Hs & Hp).
  assert (Hb : body = [""]).
  { vm_compute in Hs. congruence. }
  subst body. vm_compute in Hp. discriminate.
Qed.

(** C3, amended: for a monitor without logged connection, whatever its
    counters, pid and log path, the writes of [export_report] are the
    header, the statistics section, the section of email connections with
    its placeholder, the section of suspicious connections with its
    placeholder, and the title of the section of all connections, after
    which nothing is written. *)
Theorem C3_export_empty_session
  (hms : Q -> string) (generated : string) (m : NetworkMonitor) :
  connections m = [] ->
  export_report hms generated m =
    [ "=== EMAIL INVESTIGATION TOOL - NETWORK MONITORING REPORT ===" +:+ nl;
      "Generated: " +:+ generated +:+ nl;
      "Process PID: " +:+ pretty (pid m) +:+ nl;
      "Log File: " +:+ log_file_path m +:+ nl +:+ nl;
      "=== STATISTICS ===" +:+ nl;
      "Total connections: " +:+ pretty (total_connections (stats m)) +:+ nl;
      "SMTP connections: " +:+ pretty (smtp_connections (stats m)) +:+ nl;
      "IMAP connections: " +:+ pretty (imap_connections (stats m)) +:+ nl;
      "DNS queries: " +:+ pretty (dns_queries (stats m)) +:+ nl;
      "Other connections: " +:+ pretty (other_connections (stats m)) +:+ nl;
      "Suspicious connections: "
        +:+ pretty (suspicious_connections (stats m)) +:+ nl +:+ nl;
      "=== EMAIL SERVER CONNECTIONS ===" +:+ nl;
      "No email server connections detected." +:+ nl;
      nl +:+ "=== SUSPICIOUS CONNECTIONS ===" +:+ nl;
      "No suspicious connections detected." +:+ nl;
      nl +:+ "=== ALL CONNECTIONS ===" +:+ nl ].
Proof.
  intros Hempty.
  unfold export_report, get_smtp_connections, get_imap_connections,
    get_suspicious_connections.
  rewrite Hempty. reflexivity.
Qed.

Lemma C3_export_empty_session_witness :
  export_report midnight "2024-01-01 00:00:00" fresh =
    [ "=== EMAIL INVESTIGATION TOOL - NETWORK MONITORING REPORT ===" +:+ nl;
      "Generated: " +:+ "2024-01-01 00:00:00" +:+ nl;
      "Process PID: " +:+ pretty (pid fresh) +:+ nl;
      "Log File: " +:+ log_file_path fresh +:+ nl +:+ nl;
      "=== STATISTICS ===" +:+ nl;
      "Total connections: "
        +:+ pretty (total_connections (stats fresh)) +:+ nl;
      "SMTP connections: " +:+ pretty (smtp_connections (stats fresh)) +:+ nl;
      "IMAP connections: " +:+ pretty (imap_connections (stats fresh)) +:+ nl;
      "DNS queries: " +:+ pretty (dns_queries (stats fresh)) +:+ nl;
      "Other connections: "
        +:+ pretty (other_connections (stats fresh)) +:+ nl;
      "Suspicious connections: "
        +:+ pretty (suspicious_connections (stats fresh)) +:+ nl +:+ nl;
      "=== EMAIL SERVER CONNECTIONS ===" +:+ nl;
      "No email server connections detected." +:+ nl;
      nl +:+ "=== SUSPICIOUS CONNECTIONS ===" +:+ nl;
      "No suspicious connections detected." +:+ nl;
      nl +:+ "=== ALL CONNECTIONS ===" +:+ nl ].
Proof.
  apply (C3_export_empty_session midnight "2024-01-01 00:00:00" fresh).
  reflexivity.
Defined.

End MonitorFacts2.

Section SamplerFacts.
Import Py Monitor Samples.

(** *** One step of the loop *)

Lemma observe_none t (c : pconn) m :
  status c = CONN_NONE -> observe t c m = m.
Proof.
  intros H. unfold observe. rewrite H. reflexivity.
Qed.

Lemma observe_known t (c : pconn) m :
  conn_id c ∈ known_connections m -> observe t c m = m.
Proof.
  intros H. unfold observe.
  destruct (String.eqb (status c) CONN_NONE); [reflexivity |].
  rewrite decide_True by assumption. reflexivity.
Qed.

Lemma observe_new t (c : pconn) m :
  status c <> CONN_NONE -> conn_id c ∉ known_connections m ->
  observe t c m =
    {| pid := pid m;
       process_name := process_name m;
       monitoring := monitoring m;
       connections := connections m ++ [make_record t m c];
       stats := _categorize_connection (make_record t m c)
                  (remote_port (make_record t m c)) (bump_total (stats m));
       known_connections := {[ conn_id c ]} ∪ known_connections m;
       log_file_path := log_file_path m |}.
Proof.
  intros Hs Hk. unfold observe.
  apply String.eqb_neq in Hs. rewrite Hs.
  rewrite decide_False by assumption. reflexivity.
Qed.



Lemma apply_event_known (e : event) m :
  known_connections m ⊆ known_connections (apply_event m e).
Proof.
  destruct e as [| | t c]; cbn.
  - unfold start_monitoring. destruct (monitoring m); set_solver.
  - unfold stop_monitoring. destruct (negb (monitoring m)); set_solver.
  - unfold observe.
    destruct (String.eqb (status c) CONN_NONE); [set_solver |].
    destruct (decide _); cbn; set_solver.
Qed.

(** A key once in the dedup set stays in it. *)
Lemma run_events_known (history : list event) m :
  known_connections m ⊆ known_connections (run_events history m).
Proof.
  revert m. induction history as [| e history IH]; intros m; cbn.
  - set_solver.
  - etrans; [apply (apply_event_known e) | apply IH].
Qed.




End SamplerFacts.

Section SamplerClasses.
Import Py Monitor Samples.

(** *** Classes and suspicion *)

(** C9: a sampled connection to remote port 9999 is counted other-class and
    suspicious, its record is flagged by the high-port rule and returned by
    [get_suspicious_connections]; a sampled connection to remote port 587
    is counted smtp-class, the suspicious counter does not move, and the
    high-port rule does not flag its record. *)
Theorem C9_ports_9999_and_587
  (m : NetworkMonitor) (t : Q) (c : pconn) (a : addr) :
  raddr c = Some a ->
  status c <> CONN_NONE ->
  conn_id c ∉ known_connections m ->
  let r := make_record t m c in
  let s := stats m in
  let s' := stats (observe t c m) in
  (port a = 9999 ->
     other_class (remote_port r) = true
     /\ unexpected_high_port r = true
     /\ _is_suspicious_connection r = true
     /\ other_connections s' = other_connections s + 1
     /\ suspicious_connections s' = suspicious_connections s + 1
     /\ smtp_connections s' = smtp_connections s
     /\ In r (get_suspicious_connections (observe t c m)))
  /\ (port a = 587 ->
     smtp_class (remote_port r) = true
     /\ unexpected_high_port r = false
     /\ smtp_connections s' = smtp_connections s + 1
     /\ other_connections s' = other_connections s
     /\ suspicious_connections s' = suspicious_connections s).
Proof.
  intros Hr Hs Hk r s s'.
  assert (Hp : remote_port r = port a).
  { subst r. unfold make_record. cbn. rewrite Hr. reflexivity. }
  subst s'. rewrite (observe_new t c m Hs Hk). fold r. cbn [stats].
  split; intros Hport; rewrite Hport in Hp.
  - assert (Hh : unexpected_high_port r = true).
    { unfold unexpected_high_port. rewrite Hp. reflexivity. }
    assert (Hsus : _is_suspicious_connection r = true).
    { unfold _is_suspicious_connection. rewrite Hh.
      destruct (watch_pattern_hit r); reflexivity. }
    split; [rewrite Hp; reflexivity |].
    split; [exact Hh |]. split; [exact Hsus |].
    unfold _categorize_connection. rewrite Hp. cbn. rewrite Hsus.
    repeat split.
    unfold get_suspicious_connections. cbn [connections].
    apply filter_In. split; [| exact Hsus].
    apply in_or_app. right. left. reflexivity.
  - split; [rewrite Hp; reflexivity |].
    split; [unfold unexpected_high_port; rewrite Hp; reflexivity |].
    unfold _categorize_connection. rewrite Hp. cbn. repeat split.
Qed.

Lemma C9_ports_9999_and_587_witness :
  let c := sample_conn "93.184.216.34" 9999 in
  let r := make_record 1 fresh c in
  let s := stats fresh in
  let s' := stats (observe 1 c fresh) in
  other_class (remote_port r) = true
  /\ unexpected_high_port r = true
  /\ _is_suspicious_connection r = true
  /\ other_connections s' = other_connections s + 1
  /\ suspicious_connections s' = suspicious_connections s + 1
  /\ smtp_connections s' = smtp_connections s
  /\ In r (get_suspicious_connections (observe 1 c fresh)).
Proof.
  intros c.
  apply (C9_ports_9999_and_587 fresh 1 c
           {| ip := "93.184.216.34"; port := 9999 |}).
  - reflexivity.
  - vm_compute. discriminate.
  - vm_compute. set_solver.
  - reflexivity.
Defined.

(** *** The suspicious counter and the accessor *)

Lemma filter_length_le {A} (f g : A -> bool) (l : list A) :
  (forall x, f x = true -> g x = true) ->
  (length (List.filter f l) <= length (List.filter g l))%nat.
Proof.
  intros Hfg. induction l as [| x l IH]; cbn; [lia |].
  destruct (f x) eqn:Hf.
  - rewrite (Hfg x Hf). cbn. lia.
  - destruct (g x); cbn; lia.
Qed.

Lemma categorize_suspicious r s :
  suspicious_connections (_categorize_connection r (remote_port r) s)
  = suspicious_connections s
    + if other_class (remote_port r) && _is_suspicious_connection r
      then 1 else 0.
Proof.
  unfold _categorize_connection, other_class.
  destruct (smtp_class (remote_port r)), (imap_class (remote_port r)),
    (dns_class (remote_port r)), (_is_suspicious_connection r);
    cbn; lia.
Qed.

Lemma counted_suspicious_snoc l r :
  counted_suspicious (l ++ [r])
  = counted_suspicious l
    + if other_class (remote_port r) && _is_suspicious_connection r
      then 1 else 0.
Proof.
  unfold counted_suspicious. rewrite List.filter_app, length_app. cbn.
  destruct (other_class (remote_port r) && _is_suspicious_connection r);
    cbn; lia.
Qed.

(** In every state of the monitor the suspicious counter is the number of
    logged records of the other class that the predicate flags. *)
Lemma suspicious_counter_invariant m :
  reachable m ->
  suspicious_connections (stats m) = counted_suspicious (connections m).
Proof.
  induction 1 as [p n f | m Hm IH | m Hm IH | m t c Hm IH].
  - reflexivity.
  - unfold start_monitoring. destruct (monitoring m); exact IH.
  - unfold stop_monitoring. destruct (negb (monitoring m)); exact IH.
  - unfold observe.
    destruct (String.eqb (status c) CONN_NONE); [exact IH |].
    destruct (decide _); [exact IH |].
    cbn [stats connections].
    rewrite categorize_suspicious, counted_suspicious_snoc. cbn. lia.
Qed.

Lemma flagged_split (l : list NetworkConnection) :
  Z.of_nat (length (List.filter _is_suspicious_connection l))
  = counted_suspicious l + uncounted_suspicious l.
Proof.
  unfold counted_suspicious, uncounted_suspicious.
  induction l as [| x l IH]; [reflexivity |].
  cbn [List.filter].
  destruct (other_class (remote_port x)), (_is_suspicious_connection x);
    cbn [andb negb length]; lia.
Qed.

(** C10: [_categorize_connection] asks the suspicion predicate about a new
    record of the other class only: the counter moves by one exactly for
    such a record that the predicate flags, so that in every state of the
    monitor the counter is the number of flagged other-class records.
    [get_suspicious_connections] applies the same predicate to every record
    of the log, whatever its class: it returns the flagged records in log
    order, its length is the counter plus the number of flagged smtp, imap
    and dns records, and the counter is at most that length.  A new
    connection to an smtp, imap or dns port whose remote address hits the
    watch list leaves the counter as it was and its record is returned by
    [get_suspicious_connections], so that the counter is then strictly
    below the length of that list. *)
Theorem C10_counter_below_accessor
  (m : NetworkMonitor) (t : Q) (c : pconn) :
  reachable m ->
  let r := make_record t m c in
  let m' := observe t c m in
  get_suspicious_connections m
  = List.filter _is_suspicious_connection (connections m)
  /\ (forall x,
        In x (get_suspicious_connections m)
        <-> In x (connections m) /\ _is_suspicious_connection x = true)
  /\ suspicious_connections (stats m) = counted_suspicious (connections m)
  /\ Z.of_nat (length (get_suspicious_connections m))
     = suspicious_connections (stats m) + uncounted_suspicious (connections m)
  /\ suspicious_connections (stats m)
     <= Z.of_nat (length (get_suspicious_connections m))
  /\ (status c <> CONN_NONE ->
      conn_id c ∉ known_connections m ->
      suspicious_connections (stats m')
      = suspicious_connections (stats m)
        + (if other_class (remote_port r) && _is_suspicious_connection r
           then 1 else 0)
      /\ (In r (get_suspicious_connections m')
          <-> _is_suspicious_connection r = true
              \/ In r (get_suspicious_connections m)))
  /\ (status c <> CONN_NONE ->
      conn_id c ∉ known_connections m ->
      other_class (remote_port r) = false ->
      watch_pattern_hit r = true ->
      suspicious_connections (stats m') = suspicious_connections (stats m)
      /\ In r (get_suspicious_connections m')
      /\ suspicious_connections (stats m')
         < Z.of_nat (length (get_suspicious_connections m'))).
Proof.
  intros Hreach r m'.
  pose proof (suspicious_counter_invariant m Hreach) as Hinv.
  pose proof (flagged_split (connections m)) as Hsplit.
  assert (Hpos : 0 <= uncounted_suspicious (connections m))
    by (unfold uncounted_suspicious; lia).
  assert (Hstep : status c <> CONN_NONE ->
            conn_id c ∉ known_connections m ->
            suspicious_connections (stats m')
            = suspicious_connections (stats m)
              + (if other_class (remote_port r) && _is_suspicious_connection r
                 then 1 else 0)
            /\ get_suspicious_connections m'
               = (get_suspicious_connections m
                  ++ if _is_suspicious_connection r then [r] else [])%list).
  { intros Hs Hk. subst m'. rewrite (observe_new t c m Hs Hk). fold r.
    unfold get_suspicious_connections. cbn [stats connections].
    rewrite categorize_suspicious, List.filter_app. cbn [List.filter].
    split; [reflexivity |].
    destruct (_is_suspicious_connection r); reflexivity. }
  split; [reflexivity |]. split.
  { intros x. unfold get_suspicious_connections. apply filter_In. }
  split; [exact Hinv |]. split.
  { unfold get_suspicious_connections. rewrite Hsplit, Hinv. reflexivity. }
  split.
  { unfold get_suspicious_connections. rewrite Hsplit, Hinv. lia. }
  split.
  - intros Hs Hk. destruct (Hstep Hs Hk) as [Hcnt Hacc].
    split; [exact Hcnt |]. rewrite Hacc, in_app_iff.
    destruct (_is_suspicious_connection r); cbn [In]; split.
    + intros _. left. reflexivity.
    + intros _. right. left. reflexivity.
    + intros [H | []]. right. exact H.
    + intros [H | H]; [discriminate | left; exact H].
  - intros Hs Hk Hclass Hhit.
    assert (Hsus : _is_suspicious_connection r = true).
    { unfold _is_suspicious_connection. rewrite Hhit. reflexivity. }
    destruct (Hstep Hs Hk) as [Hcnt Hacc].
    rewrite Hclass in Hcnt. cbn [andb] in Hcnt. rewrite Hsus in Hacc.
    split; [lia |]. split.
    + rewrite Hacc. apply in_or_app. right. left. reflexivity.
    + rewrite Hacc, length_app. cbn [length].
      unfold get_suspicious_connections. lia.
Qed.

Lemma C10_counter_below_accessor_witness :
  let c := sample_conn "telemetry.mail.example" 25 in
  let r := make_record 7 used c in
  let m' := observe 7 c used in
  get_suspicious_connections used
  = List.filter _is_suspicious_connection (connections used)
  /\ suspicious_connections (stats used) = counted_suspicious (connections used)
  /\ Z.of_nat (length (get_suspicious_connections used))
     = suspicious_connections (stats used)
       + uncounted_suspicious (connections used)
  /\ suspicious_connections (stats used)
     <= Z.of_nat (length (get_suspicious_connections used))
  /\ suspicious_connections (stats m') = suspicious_connections (stats used)
  /\ In r (get_suspicious_connections m')
  /\ suspicious_connections (stats m')
     < Z.of_nat (length (get_suspicious_connections m')).
Proof.
  intros c r m'.
  destruct (C10_counter_below_accessor used 7 c)
    as (Hacc & _ & Hinv & Hlen & Hle & _ & Hmail).
  { unfold used. repeat constructor. }
  split; [exact Hacc |]. split; [exact Hinv |]. split; [exact Hlen |].
  split; [exact Hle |].
  apply Hmail.
  - vm_compute. discriminate.
  - vm_compute. set_solver.
  - reflexivity.
  - vm_compute. reflexivity.
Defined.

End SamplerClasses.

Section ScanFacts.
Import Py Re Analyzer Spec.

(** *** scan_smtp_ports *)

Lemma scan_port_result (net : Z -> connect) (q : Z) :
  port (scan_port net q) = q
  /\ service (scan_port net q) = Some (_get_smtp_service_name q)
  /\ is_open (scan_port net q) = negb (probe_failed (net q))
  /\ (scan_response_time (scan_port net q)
      = match net q with
        | ConnectEx 0 elapsed => Some elapsed
        | _ => None
        end).
Proof.
  unfold scan_port, probe_failed.
  destruct (net q) as [e | result elapsed]; cbn; [repeat split |].
  destruct result; cbn; repeat split.
Qed.

(** Whatever the network does, the scan returns four results, for the
    ports 25, 465, 587, 2525 in this order, each with the label of its
    port; a port is open exactly when its probe did not fail, and a result
    carries a response time exactly when the port is open. *)
Theorem scan_smtp_ports_results (net : Z -> connect) :
  map port (scan_smtp_ports net) = [25; 465; 587; 2525]
  /\ map service (scan_smtp_ports net)
     = [ Some "SMTP"; Some "SMTPS (SSL)"; Some "SMTP (STARTTLS)";
         Some "SMTP (Alternative)" ]
  /\ Forall (fun r =>
               is_open r = negb (probe_failed (net (port r)))
               /\ (is_open r = true <-> is_Some (scan_response_time r)))
            (scan_smtp_ports net).
Proof.
  unfold scan_smtp_ports, smtp_ports. cbn [map].
  split; [| split].
  - rewrite !(proj1 (scan_port_result net _)). reflexivity.
  - rewrite !(proj1 (proj2 (scan_port_result net _))). reflexivity.
  - repeat constructor;
      try (rewrite (proj1 (scan_port_result net _));
           apply (scan_port_result net));
      unfold scan_port;
      (destruct (net _) as [e | result elapsed]; cbn;
       [ intros H; discriminate
       | destruct (result =? 0); cbn; eauto; intros H; discriminate ]) ||
      (destruct (net _) as [e | result elapsed]; cbn;
       [ intros [x H]; discriminate
       | destruct (result =? 0); cbn; eauto; intros [x H]; discriminate ]).
Qed.

End ScanFacts.

Section InterferenceFacts.
Import Py Re Analyzer Spec.

(** *** analyze_isp_interference *)

Lemma collect_blocked_notes (net : Z -> connect) (ports : list Z) :
  snd (collect_blocked (map (scan_port net) ports))
  = map (fun _ => Port25Blocked)
        (List.filter (fun q => probe_failed (net q) && (q =? 25)) ports).
Proof.
  induction ports as [| q ports IH]; [reflexivity |].
  cbn [map collect_blocked List.filter].
  destruct (collect_blocked (map (scan_port net) ports)) as [blocked notes].
  cbn [snd] in IH. subst notes.
  destruct (scan_port_result net q) as (Hp & _ & Ho & _).
  rewrite Ho, Hp, negb_involutive.
  destruct (probe_failed (net q)); cbn; [| reflexivity].
  destruct (q =? 25); reflexivity.
Qed.

Lemma analyzer_mem_In (x : Z) (l : list Z) : Analyzer.mem x l = true <-> In x l.
Proof.
  unfold Analyzer.mem. rewrite existsb_exists. split.
  - intros (y & Hy & He). apply Z.eqb_eq in He. subst. exact Hy.
  - intros H. exists x. split; [exact H | apply Z.eqb_refl].
Qed.

Lemma analyze_blocked_ports_core
  (scope : gmap string obj) (host : string) (net : Z -> connect)
  (tool : tool_run) (p : probe) (d : dpi_probe) :
  let a := analyze_isp_interference scope host net tool p d in
  blocked_ports a
  = List.filter (fun q => probe_failed (net q)) [25; 465; 587; 2525]
  /\ (In Port25Blocked (suspicious_behavior a)
      <-> probe_failed (net 25) = true)
  /\ (In "Use port 587 or 465 instead of port 25" (recommendations a)
      <-> probe_failed (net 25) = true)
  /\ connection_resets a = 0.
Proof.
  cbv zeta. unfold analyze_isp_interference, scan_smtp_ports.
  pose proof (collect_blocked_failed net smtp_ports) as Hb.
  pose proof (collect_blocked_notes net smtp_ports) as Hn.
  destruct (collect_blocked (map (scan_port net) smtp_ports))
    as [blocked notes].
  cbn [fst snd] in Hb, Hn. subst blocked notes.
  cbn [blocked_ports suspicious_behavior recommendations connection_resets].
  split; [reflexivity |].
  assert (H25 : In 25 (List.filter (fun q => probe_failed (net q)) smtp_ports)
                <-> probe_failed (net 25) = true).
  { rewrite filter_In. unfold smtp_ports. cbn [In]. split.
    - intros [_ H]. exact H.
    - intros H. split; [left; reflexivity | exact H]. }
  split; [| split; [| reflexivity]].
  - rewrite !in_app_iff. split.
    + intros [H | [H | [H | H]]].
      * apply in_map_iff in H as (q & _ & Hq).
        apply filter_In in Hq as [_ Hq].
        apply andb_prop in Hq as [Hf He].
        apply Z.eqb_eq in He. subst q. exact Hf.
      * destruct (Qgtb _ 5); cbn in H; [destruct H as [H | []] |
          destruct H]; discriminate.
      * destruct (Qgtb _ 200); cbn in H; [destruct H as [H | []] |
          destruct H]; discriminate.
      * destruct (_ && _); cbn in H; [destruct H as [H | []] |
          destruct H]; discriminate.
    + intros H. left. apply in_map_iff. exists 25. split; [reflexivity |].
      apply filter_In. split; [left; reflexivity |].
      rewrite H. reflexivity.
  - rewrite in_app_iff. rewrite <- H25, <- analyzer_mem_In. split.
    + intros [H | H].
      * destruct (Analyzer.mem 25 _); [reflexivity | destruct H].
      * destruct (_ && _); cbn in H; [destruct H as [H | []] |
          destruct H]. discriminate.
    + intros H. left. rewrite H. left. reflexivity.
Qed.

(** The blocked ports of the analysis are the ports of 25, 465, 587, 2525
    whose probe failed, in this order; the note on port 25 and the advice
    to use port 587 or 465 are there exactly when the probe of port 25
    failed. *)
Theorem analyze_blocked_ports
  (scope : gmap string obj) (host : string) (net : Z -> connect)
  (tool : tool_run) (p : probe) (d : dpi_probe) :
  let a := analyze_isp_interference scope host net tool p d in
  blocked_ports a
  = List.filter (fun q => probe_failed (net q)) [25; 465; 587; 2525]
  /\ (In Port25Blocked (suspicious_behavior a)
      <-> probe_failed (net 25) = true)
  /\ (In "Use port 587 or 465 instead of port 25" (recommendations a)
      <-> probe_failed (net 25) = true)
  /\ connection_resets a = 0.
Proof. exact (analyze_blocked_ports_core scope host net tool p d). Qed.

(** *** traceroute with the names the module binds *)

Lemma fallback_hops_cases (target : string) (p : probe) :
  (exists ip ms,
     p = ProbeDone ip 0 ms
     /\ fallback_hops target p
        = [ {| hop_number := 1; ip_address := ip; hostname := Some target;
               response_time := ms; is_timeout := false |} ])
  \/ ((forall ip ms, p <> ProbeDone ip 0 ms) /\ fallback_hops target p = []).
Proof.
  destruct p as [e | ip result ms]; cbn.
  - right. split; [intros; discriminate | reflexivity].
  - destruct result; cbn.
    + left. eauto.
    + right. split; [intros; discriminate | reflexivity].
    + right. split; [intros; discriminate | reflexivity].
Qed.

Lemma traceroute_is_fallback_probe_core
  (target : string) (tool : tool_run) (p : probe) :
  let path := traceroute module_scope target tool p in
  hops path = fallback_hops target p
  /\ total_hops path <= 1
  /\ (packet_loss path == 0)%Q
  /\ Forall (fun h => is_timeout h = false) (hops path)
  /\ (forall ip ms,
        p = ProbeDone ip 0 ms ->
        total_hops path = 1 /\ target_ip path = ip
        /\ (avg_rtt path == ms)%Q
        /\ map hop_number (hops path) = [1]
        /\ map hostname (hops path) = [Some target])
  /\ ((forall ip ms, p <> ProbeDone ip 0 ms) ->
        hops path = [] /\ total_hops path = 0 /\ target_ip path = ""
        /\ (avg_rtt path == 0)%Q /\ isp_detected path = None).
Proof.
  cbv zeta. unfold traceroute. rewrite parse_hops_module_scope.
  cbn [hops total_hops packet_loss avg_rtt target_ip isp_detected].
  destruct (fallback_hops_cases target p)
    as [(ip & ms & Hp & Hf) | (Hp & Hf)]; rewrite Hf.
  - split; [reflexivity |]. split; [unfold len; cbn; lia |].
    split; [reflexivity |]. split; [repeat constructor |].
    split.
    + intros ip' ms' Hp'. rewrite Hp in Hp'. injection Hp' as -> ->.
      repeat split.
      unfold compute_avg_rtt, valid_hops, sum, len. cbn.
      rewrite Qplus_0_l. unfold Qdiv. change (/ inject_Z 1)%Q with 1%Q.
      apply Qmult_1_r.
    + intros Hno. exfalso. exact (Hno ip ms Hp).
  - split; [reflexivity |]. split; [unfold len; cbn; lia |].
    split; [reflexivity |]. split; [constructor |].
    split.
    + intros ip ms Hp'. exfalso. exact (Hp ip ms Hp').
    + intros _. repeat split.
Qed.

(** As the module stands, the path [traceroute] returns is the one of the
    fallback probe, whatever the tracing tool printed: a single hop numbered
    1 with the target as host name and the connect time as round trip when
    the connect to port 80 succeeded, no hop otherwise; it never holds a
    timeout hop and its packet loss is 0. *)
Theorem traceroute_is_fallback_probe
  (target : string) (tool : tool_run) (p : probe) :
  let path := traceroute module_scope target tool p in
  hops path = fallback_hops target p
  /\ total_hops path <= 1
  /\ (packet_loss path == 0)%Q
  /\ Forall (fun h => is_timeout h = false) (hops path)
  /\ (forall ip ms,
        p = ProbeDone ip 0 ms ->
        total_hops path = 1 /\ target_ip path = ip
        /\ (avg_rtt path == ms)%Q
        /\ map hop_number (hops path) = [1]
        /\ map hostname (hops path) = [Some target])
  /\ ((forall ip ms, p <> ProbeDone ip 0 ms) ->
        hops path = [] /\ total_hops path = 0 /\ target_ip path = ""
        /\ (avg_rtt path == 0)%Q /\ isp_detected path = None).
Proof. exact (traceroute_is_fallback_probe_core target tool p). Qed.

(** As the module stands, the analysis never notes a high packet loss, and
    it reports throttling exactly when at least two of the four ports
    failed their probe. *)
Theorem analyze_never_sees_packet_loss
  (host : string) (net : Z -> connect) (tool : tool_run) (p : probe)
  (d : dpi_probe) :
  let a := analyze_isp_interference module_scope host net tool p d in
  (forall pct, ~ In (HighPacketLoss pct) (suspicious_behavior a))
  /\ (throttling_detected a = true <-> 2 <= failed_ports net).
Proof.
  cbv zeta.
  destruct (traceroute_is_fallback_probe_core host tool p) as (_ & _ & Hloss & _).
  split.
  - intros pct. unfold analyze_isp_interference.
    destruct (collect_blocked (scan_smtp_ports net)) as [blocked notes] eqn:Hc.
    cbn [suspicious_behavior].
    assert (Hn : notes = map (fun _ => Port25Blocked)
               (List.filter (fun q => probe_failed (net q) && (q =? 25))
                            smtp_ports)).
    { pose proof (collect_blocked_notes net smtp_ports) as Hn.
      unfold scan_smtp_ports in Hc. rewrite Hc in Hn. exact Hn. }
    assert (H5 : Qgtb (packet_loss (traceroute module_scope host tool p)) 5
                 = false).
    { destruct (Qgtb _ 5) eqn:HQ; [| reflexivity].
      apply Qgtb_lt in HQ. rewrite Hloss in HQ. discriminate. }
    rewrite H5, !in_app_iff. intros [H | [H | [H | H]]].
    + subst notes. apply in_map_iff in H as (q & Hq & _). discriminate.
    + destruct H.
    + destruct (Qgtb _ 200); cbn in H; [destruct H as [H | []] |
        destruct H]. discriminate.
    + destruct (_ && _); cbn in H; [destruct H as [H | []] |
        destruct H]. discriminate.
  - unfold analyze_isp_interference, scan_smtp_ports, failed_ports.
    pose proof (collect_blocked_failed net smtp_ports) as Hb.
    destruct (collect_blocked (map (scan_port net) smtp_ports))
      as [blocked notes].
    cbn [fst] in Hb. subst blocked. cbn [throttling_detected].
    rewrite orb_true_iff, Z.ltb_lt, Qgtb_lt. unfold len. split.
    + intros [H | H]; [lia |]. rewrite Hloss in H. discriminate.
    + intros H. left. lia.
Qed.

End InterferenceFacts.

Section CarrierFacts.
Import Py Re Analyzer Spec.

(** *** _detect_isp_from_hops *)

Lemma match_isp_some (table : list (string * list string)) (h x : string) :
  match_isp table h = Some x ->
  exists isp patterns,
    In (isp, patterns) table /\ x = upper isp
    /\ existsb (fun pattern => contains pattern h) patterns = true.
Proof.
  induction table as [| [isp patterns] table IH]; cbn; [discriminate |].
  destruct (existsb _ patterns) eqn:He.
  - intros [= <-]. exists isp, patterns. auto.
  - intros H. destruct (IH H) as (i & ps & Hin & Hx & Hp).
    exists i, ps. auto.
Qed.

Lemma match_isp_none (table : list (string * list string)) (h : string) :
  match_isp table h = None
  <-> existsb (fun entry =>
                 existsb (fun pattern => contains pattern h) (snd entry))
              table = false.
Proof.
  induction table as [| [isp patterns] table IH]; cbn; [tauto |].
  destruct (existsb _ patterns); cbn; [split; discriminate | exact IH].
Qed.

Lemma match_isp_names (h x : string) :
  match_isp isp_patterns h = Some x -> In x carrier_names.
Proof.
  intros H. apply match_isp_some in H as (isp & ps & Hin & -> & _).
  unfold isp_patterns in Hin. cbn [In] in Hin.
  repeat (destruct Hin as [[= <- <-] | Hin];
          [vm_compute; tauto |]).
  destruct Hin.
Qed.

(** The hop that decides: the first one whose host name holds a pattern. *)
Lemma hop_matches_table (h : TracerouteHop) :
  truthy_str (hostname h) = true ->
  hop_matches h = true
  <-> is_Some (match_isp isp_patterns (lower (default "" (hostname h)))).
Proof.
  intros Ht. unfold hop_matches. rewrite Ht, andb_true_l.
  destruct (match_isp isp_patterns _) as [y |] eqn:Hm.
  - split; [eauto |]. intros _.
    destruct (existsb _ isp_patterns) eqn:He; [reflexivity |].
    apply match_isp_none in He. congruence.
  - apply match_isp_none in Hm. rewrite Hm.
    split; [discriminate | intros [y Hy]; discriminate].
Qed.

Lemma hop_matches_no_name (h : TracerouteHop) :
  truthy_str (hostname h) = false -> hop_matches h = false.
Proof. intros Ht. unfold hop_matches. rewrite Ht. reflexivity. Qed.

Lemma detect_isp_cons (h : TracerouteHop) (hs : list TracerouteHop) :
  _detect_isp_from_hops (h :: hs)
  = if hop_matches h
    then match_isp isp_patterns (lower (default "" (hostname h)))
    else _detect_isp_from_hops hs.
Proof.
  cbn [_detect_isp_from_hops].
  destruct (truthy_str (hostname h)) eqn:Ht.
  - pose proof (hop_matches_table h Ht) as Hm.
    destruct (match_isp isp_patterns _) as [y |].
    + rewrite (proj2 Hm) by eauto. reflexivity.
    + destruct (hop_matches h); [| reflexivity].
      destruct (proj1 Hm eq_refl) as [y Hy]. discriminate.
  - rewrite (hop_matches_no_name h Ht). reflexivity.
Qed.

(** The hop that decides: the first one whose host name holds a pattern. *)
Lemma detect_isp_first_match (hs : list TracerouteHop) (x : string) :
  _detect_isp_from_hops hs = Some x ->
  exists before h after,
    hs = (before ++ h :: after)%list
    /\ Forall (fun h' => hop_matches h' = false) before
    /\ hop_matches h = true
    /\ match_isp isp_patterns (lower (default "" (hostname h))) = Some x.
Proof.
  induction hs as [| h hs IH]; [discriminate |].
  rewrite detect_isp_cons. destruct (hop_matches h) eqn:Hh.
  - intros Hm. exists [], h, hs. repeat split; auto.
  - intros H. destruct (IH H) as (b & h' & a & -> & Hb & Hh' & Hx).
    exists (h :: b), h', a. repeat split; auto.
Qed.

Lemma detect_isp_answers_core (hs : list TracerouteHop) :
  (forall x, _detect_isp_from_hops hs = Some x -> In x carrier_names)
  /\ (_detect_isp_from_hops hs = None
      <-> Forall (fun h => hop_matches h = false) hs)
  /\ (forall before h after,
        hs = (before ++ h :: after)%list ->
        Forall (fun h' => hop_matches h' = false) before ->
        hop_matches h = true ->
        _detect_isp_from_hops hs
        = match_isp isp_patterns (lower (default "" (hostname h)))
        /\ is_Some (_detect_isp_from_hops hs)).
Proof.
  split; [| split].
  - intros x H. apply detect_isp_first_match in H
      as (b & h & a & _ & _ & _ & Hm).
    exact (match_isp_names _ _ Hm).
  - induction hs as [| h hs IH].
    + split; [constructor | reflexivity].
    + rewrite detect_isp_cons, Forall_cons_iff.
      destruct (hop_matches h) eqn:Hh.
      * split; [| intros [? _]; discriminate].
        intros Hm. exfalso.
        destruct (truthy_str (hostname h)) eqn:Ht.
        -- apply (hop_matches_table h Ht) in Hh as [y Hy]. congruence.
        -- rewrite (hop_matches_no_name h Ht) in Hh. discriminate.
      * rewrite IH. tauto.
  - intros before h after -> Hb Hh.
    induction Hb as [| h' b Hh' Hb IH].
    + cbn [app]. rewrite detect_isp_cons, Hh. split; [reflexivity |].
      destruct (truthy_str (hostname h)) eqn:Ht.
      * apply (hop_matches_table h Ht). exact Hh.
      * rewrite (hop_matches_no_name h Ht) in Hh. discriminate.
    + cbn [app]. rewrite detect_isp_cons, Hh'. exact IH.
Qed.

(** The answer is one of six carrier names in capitals, or nothing; it is
    nothing exactly when no hop has a host name that holds, in lower case,
    a pattern of the table; otherwise the first such hop decides, whatever
    follows it. *)
Theorem detect_isp_answers (hs : list TracerouteHop) :
  (forall x, _detect_isp_from_hops hs = Some x -> In x carrier_names)
  /\ (_detect_isp_from_hops hs = None
      <-> Forall (fun h => hop_matches h = false) hs)
  /\ (forall before h after,
        hs = (before ++ h :: after)%list ->
        Forall (fun h' => hop_matches h' = false) before ->
        hop_matches h = true ->
        _detect_isp_from_hops hs
        = match_isp isp_patterns (lower (default "" (hostname h)))
        /\ is_Some (_detect_isp_from_hops hs)).
Proof. exact (detect_isp_answers_core hs). Qed.

(** The note on Comcast and the advice of a VPN or another relay are in
    the analysis exactly when the carrier found on the path is COMCAST. *)
Theorem analyze_comcast_note
  (scope : gmap string obj) (host : string) (net : Z -> connect)
  (tool : tool_run) (p : probe) (d : dpi_probe) :
  let a := analyze_isp_interference scope host net tool p d in
  isp_name a = isp_detected (traceroute scope host tool p)
  /\ (In ComcastDetected (suspicious_behavior a)
      <-> isp_name a = Some "COMCAST")
  /\ (In "Consider using VPN or alternative SMTP relay" (recommendations a)
      <-> isp_name a = Some "COMCAST").
Proof.
  cbv zeta. unfold analyze_isp_interference.
  destruct (collect_blocked (scan_smtp_ports net)) as [blocked notes] eqn:Hc.
  cbn [isp_name suspicious_behavior recommendations].
  split; [reflexivity |].
  assert (Hn : notes = map (fun _ => Port25Blocked)
             (List.filter (fun q => probe_failed (net q) && (q =? 25))
                          smtp_ports)).
  { pose proof (collect_blocked_notes net smtp_ports) as Hn.
    unfold scan_smtp_ports in Hc. rewrite Hc in Hn. exact Hn. }
  set (path := traceroute scope host tool p).
  assert (Hcom : truthy_str (isp_detected path)
                 && contains "comcast" (lower (default "" (isp_detected path)))
                 = true <-> isp_detected path = Some "COMCAST").
  { subst path. unfold traceroute. cbn [isp_detected].
    destruct (_detect_isp_from_hops _) as [x |] eqn:Hd.
    - pose proof (proj1 (detect_isp_answers_core _) x Hd) as Hin.
      unfold carrier_names in Hin. cbn [In] in Hin.
      repeat (destruct Hin as [<- | Hin];
              [vm_compute; split; congruence |]).
      destruct Hin.
    - cbn. split; discriminate. }
  destruct (truthy_str (isp_detected path)
            && contains "comcast" (lower (default "" (isp_detected path)))).
  - split; split; intros _; try (apply Hcom; reflexivity).
    + rewrite !in_app_iff. right. right. right. left. reflexivity.
    + rewrite in_app_iff. right. left. reflexivity.
  - split; split; intros H; try (apply Hcom in H; discriminate).
    + rewrite !in_app_iff in H. exfalso.
      destruct H as [H | [H | [H | H]]].
      * subst notes. apply in_map_iff in H as (q & Hq & _). discriminate.
      * destruct (Qgtb _ 5); cbn in H; [destruct H as [H | []] |
          destruct H]. discriminate.
      * destruct (Qgtb _ 200); cbn in H; [destruct H as [H | []] |
          destruct H]. discriminate.
      * destruct H.
    + rewrite in_app_iff in H. exfalso. destruct H as [H | H]; [| destruct H].
      destruct (Analyzer.mem 25 blocked); cbn in H; [| destruct H].
      destruct H as [H | []]. discriminate.
Qed.

End CarrierFacts.

Section LoopFacts.
Import Py Re Analyzer Spec.

(** *** The timeout counter along the loop *)

Lemma loop_body_counter (scope : gmap string obj) line st :
  0 <= consecutive_timeouts st <= 2 ->
  let r := loop_body scope line st in
  0 <= consecutive_timeouts (fst r) <= 3
  /\ (snd r = Broke <-> consecutive_timeouts (fst r) = 3).
Proof.
  intros Hc. cbv zeta.
  destruct (numbered_line line) eqn:Hn.
  - destruct (timeout_line line) eqn:Ht.
    + rewrite (timeout_line_body scope line st Hn Ht).
      cbn [fst snd consecutive_timeouts].
      destruct (3 <=? consecutive_timeouts st + 1) eqn:H3.
      * apply Z.leb_le in H3. split; [lia |].
        split; [intros _; lia | reflexivity].
      * apply Z.leb_gt in H3. split; [lia |].
        split; [discriminate | intros E; lia].
    + pose proof (reset_line_body scope line st Hn Ht) as H0.
      split; [lia |]. rewrite H0. split; [| discriminate].
      intros Hb. exfalso. revert Hb.
      unfold numbered_line, timeout_line in *.
      apply andb_prop in Hn as [Hn H3]. apply andb_prop in Hn as [H1 H2].
      apply bool_decide_eq_true in H3 as [n Hi].
      unfold loop_body. apply negb_true_iff in H1. rewrite H1, H2, Hi, Ht.
      repeat (case_match; cbn; try discriminate).
  - rewrite (unnumbered_line_body scope line st Hn). cbn [fst snd].
    split; [lia |]. split; [discriminate | intros E; lia].
Qed.

(** From a counter at 0 the loop keeps the counter between 0 and 3, and it
    ends by [break] exactly when the counter is 3: at the third numbered
    timeout line in a row. *)
Theorem run_loop_counter_bounds
  (scope : gmap string obj) (lines : list string) (hs : list TracerouteHop) :
  let r := run_loop scope lines
             {| ls_hops := hs; consecutive_timeouts := 0 |} in
  0 <= consecutive_timeouts (fst r) <= 3
  /\ (snd r = Broke <-> consecutive_timeouts (fst r) = 3).
Proof.
  cbv zeta.
  assert (H : forall st, 0 <= consecutive_timeouts st <= 2 ->
            0 <= consecutive_timeouts (fst (run_loop scope lines st)) <= 3
            /\ (snd (run_loop scope lines st) = Broke
                <-> consecutive_timeouts (fst (run_loop scope lines st)) = 3)).
  { induction lines as [| line rest IH]; intros st Hc.
    - cbn. split; [lia |]. split; [discriminate | intros E; lia].
    - cbn [run_loop].
      pose proof (loop_body_counter scope line st Hc) as Hb. cbv zeta in Hb.
      destruct (loop_body scope line st) as [st' c]. cbn [fst snd] in Hb.
      destruct c; try exact Hb.
      apply IH. destruct Hb as [Hr Hi].
      assert (consecutive_timeouts st' <> 3) by (intros E; apply Hi in E; discriminate).
      lia. }
  apply H. cbn. lia.
Qed.

(** *** The cache of resolve_dns *)

(** A lookup stores its result under the host name and leaves the entries
    of every other host name as they were, so that the cache holds the last
    result for each name that was resolved. *)
Theorem resolve_dns_updates_cache
  (rs : resolver) (start_time now now' : Q)
  (cache : gmap string DNSResult) (host : string) :
  exists r cache',
    resolve_dns rs start_time now now' cache host = inr (r, cache')
    /\ cache' !! host = Some r
    /\ (forall other, other <> host -> cache' !! other = cache !! other)
    /\ dns_hostname r = host
    /\ (dns_response_time r == now - start_time)%Q
    /\ dnssec_valid r = false.
Proof.
  unfold resolve_dns, try_except, bind, ret.
  destruct (resolve_A rs host) as [ea | la];
    destruct (resolve_MX rs host) as [em | lm];
    eexists; eexists; (split; [reflexivity |]);
    (split; [apply lookup_insert_eq |]);
    (split; [intros other Ho; apply lookup_insert_ne; congruence |]);
    cbn; repeat split; reflexivity.
Qed.

End LoopFacts.

Section StabilityFacts.
Import Py Re Analyzer Spec.

(** *** test_connection_stability *)

Lemma range_length (n : Z) : len (range n) = Z.max 0 n.
Proof. unfold len, range. rewrite length_map, length_seq. lia. Qed.

Lemma range_In (n i : Z) : In i (range n) <-> 0 <= i < n.
Proof.
  unfold range. rewrite in_map_iff. split.
  - intros (k & <- & Hk). apply in_seq in Hk. lia.
  - intros Hi. exists (Z.to_nat i). split; [lia |]. apply in_seq. lia.
Qed.

Lemma stability_fold (net : Z -> attempt) (l : list Z) (r0 : stability) :
  let r := fold_left (fun results i => stability_step results (net i)) l r0 in
  successful_connections r
  = successful_connections r0
    + len (List.filter (fun i => is_connected (net i)) l)
  /\ failed_connections r
     = failed_connections r0
       + len (List.filter (fun i => negb (is_connected (net i))) l)
  /\ len (connection_times r)
     = len (connection_times r0)
       + len (List.filter (fun i => is_connected (net i)) l)
  /\ reset_detected r
     = reset_detected r0 || existsb (fun i => reset_error (net i)) l
  /\ avg_connection_time r = avg_connection_time r0.
Proof.
  cbv zeta. revert r0. induction l as [| i l IH]; intros r0.
  - cbn. unfold len. cbn. rewrite orb_false_r. repeat split; lia.
  - cbn [fold_left List.filter existsb].
    destruct (IH (stability_step r0 (net i))) as (Hs & Hf & Ht & Hr & Ha).
    rewrite Hs, Hf, Ht, Hr, Ha. unfold stability_step, len.
    destruct (net i) as [t | msg]; cbn.
    + rewrite length_app. cbn. repeat split; lia.
    + destruct (contains "reset" (lower msg)); cbn;
        rewrite ?orb_true_r; repeat split; try lia.
Qed.

(** The test makes [duration // 5] attempts, none when the duration is
    below 5: every attempt is counted once, as a success or as a failure,
    and a connection time is kept for each success and for nothing else. *)
Theorem stability_counts (net : Z -> attempt) (duration : Z) :
  let r := test_connection_stability net duration in
  successful_connections r + failed_connections r = Z.max 0 (duration / 5)
  /\ 0 <= successful_connections r
  /\ 0 <= failed_connections r
  /\ len (connection_times r) = successful_connections r
  /\ (duration < 5 -> r = no_results).
Proof.
  cbv zeta. unfold test_connection_stability.
  pose proof (stability_fold net (range (duration / 5)) no_results) as H.
  cbv zeta in H. destruct H as (Hs & Hf & Ht & _ & _).
  set (r := fold_left _ _ _) in *.
  assert (Hsplit : len (List.filter (fun i => is_connected (net i))
                                    (range (duration / 5)))
                   + len (List.filter (fun i => negb (is_connected (net i)))
                                      (range (duration / 5)))
                   = Z.max 0 (duration / 5)).
  { rewrite <- range_length. unfold len.
    pose proof (filter_split_length (fun i => is_connected (net i))
                  (range (duration / 5))). lia. }
  cbn in Hs, Hf, Ht. unfold len in *. cbn [length] in Ht.
  assert (Hgoal :
    successful_connections r + failed_connections r = Z.max 0 (duration / 5)
    /\ 0 <= successful_connections r /\ 0 <= failed_connections r
    /\ Z.of_nat (length (connection_times r)) = successful_connections r)
    by lia.
  split; [| split; [| split; [| split]]].
  1-4: destruct (connection_times r) eqn:Hts;
    cbn [successful_connections failed_connections connection_times];
    rewrite ?Hts; tauto.
  intros Hd. subst r.
  assert (Hz : duration / 5 <= 0).
  { apply Z.lt_succ_r. apply Z.div_lt_upper_bound; lia. }
  unfold range. replace (Z.to_nat (duration / 5)) with 0%nat by lia.
  reflexivity.
Qed.

(** A reset is reported exactly when an attempt failed with a message
    that holds [reset] in any case of letters, so only after a failure.
    When no attempt succeeded no time is kept and the average stays 0; when
    exactly one attempt succeeded the average is the time of that
    attempt. *)
Theorem stability_reset_and_average (net : Z -> attempt) (duration : Z) :
  let r := test_connection_stability net duration in
  (reset_detected r = true
   <-> exists i, 0 <= i < duration / 5 /\ reset_error (net i) = true)
  /\ (reset_detected r = true -> 0 < failed_connections r)
  /\ (successful_connections r = 0 ->
      connection_times r = [] /\ (avg_connection_time r == 0)%Q)
  /\ (forall t, connection_times r = [t] ->
      successful_connections r = 1 /\ (avg_connection_time r == t)%Q).
Proof.
  cbv zeta. unfold test_connection_stability.
  pose proof (stability_fold net (range (duration / 5)) no_results) as H.
  cbv zeta in H. destruct H as (Hs & Hf & Ht & Hr & Ha).
  set (r := fold_left _ _ _) in *. cbn in Hs, Hf, Ht, Hr, Ha.
  assert (Hreset : reset_detected r = true
            <-> exists i, 0 <= i < duration / 5 /\ reset_error (net i) = true).
  { rewrite Hr, existsb_exists. split.
    - intros (i & Hi & He). apply range_In in Hi. eauto.
    - intros (i & Hi & He). exists i. rewrite range_In. auto. }
  assert (Hfail : reset_detected r = true -> 0 < failed_connections r).
  { intros Hx. apply Hreset in Hx as (i & Hi & He). rewrite Hf.
    assert (Hin : In i (List.filter (fun i => negb (is_connected (net i)))
                                    (range (duration / 5)))).
    { apply filter_In. split; [apply range_In; exact Hi |].
      destruct (net i); [discriminate | reflexivity]. }
    unfold len.
    destruct (List.filter (fun i => negb (is_connected (net i))) _);
      [exact (False_ind _ Hin) | cbn [length]; lia]. }
  assert (Hlen : Z.of_nat (length (connection_times r))
                 = successful_connections r).
  { unfold len in *. cbn [length] in Ht. lia. }
  destruct (connection_times r) as [| t ts] eqn:Hts.
  - cbv beta iota. split; [exact Hreset |]. split; [exact Hfail |].
    split.
    + intros _. split; [exact Hts | rewrite Ha; reflexivity].
    + intros t' Ht'. rewrite Hts in Ht'. discriminate.
  - cbn [reset_detected failed_connections avg_connection_time
         connection_times successful_connections].
    split; [exact Hreset |]. split; [exact Hfail |].
    split.
    + intros H0. exfalso. cbn [length] in Hlen. lia.
    + intros t' [= -> ->]. split; [cbn [length] in Hlen; lia |].
      unfold sum, len. cbn.
      rewrite Qplus_0_l. unfold Qdiv. change (/ inject_Z 1)%Q with 1%Q.
      apply Qmult_1_r.
Qed.

End StabilityFacts.

Section MainFacts.
Import Py Re Analyzer Spec Main.

(** *** run_network_analysis *)

(** As the module stands, the console never says that hops were traced: it
    confirms connectivity when the connect to port 80 succeeded and says
    that the path analysis is unavailable otherwise. *)
Theorem main_never_reports_traced_hops
  (target : string) (tool : tool_run) (p : probe) :
  let msg := report_path (traceroute module_scope target tool p) in
  (forall n avg, msg <> Traced n avg)
  /\ (msg = PathUnavailable <-> forall ip ms, p <> ProbeDone ip 0 ms)
  /\ (forall ip ms, p = ProbeDone ip 0 ms ->
        exists avg, msg = ConnectivityConfirmed avg /\ (avg == ms)%Q).
Proof.
  cbv zeta.
  destruct (traceroute_is_fallback_probe_core target tool p)
    as (Hh & _ & _ & _ & Hok & Hko).
  unfold report_path. rewrite Hh.
  destruct (fallback_hops_cases target p)
    as [(ip & ms & Hp & Hf) | (Hp & Hf)]; rewrite Hf.
  - cbn. split; [intros; discriminate |]. split.
    + split; [discriminate |]. intros Hno. exfalso. exact (Hno ip ms Hp).
    + intros ip' ms' Hp'. eexists. split; [reflexivity |].
      apply (Hok ip' ms' Hp').
  - split; [intros; discriminate |]. split.
    + split; [intros _; exact Hp | reflexivity].
    + intros ip ms Hp'. exfalso. exact (Hp ip ms Hp').
Qed.

Lemma filter_map_comm {A B} (f : B -> bool) (g : A -> B) (l : list A) :
  List.filter f (map g l) = map g (List.filter (fun x => f (g x)) l).
Proof.
  induction l as [| x l IH]; cbn; [reflexivity |].
  destruct (f (g x)); cbn; rewrite IH; reflexivity.
Qed.

(** Every scanned port is printed once, as open or as blocked, and the
    blocked ports printed after the scan are the blocked ports of the
    analysis when the network answers both scans alike. *)
Theorem main_port_lists
  (scope : gmap string obj) (host : string) (net : Z -> connect)
  (tool : tool_run) (p : probe) (d : dpi_probe) :
  let results := scan_smtp_ports net in
  (length (open_ports results) + length (blocked_ports_shown results) = 4)%nat
  /\ open_ports results
     = map pretty (List.filter (fun q => negb (probe_failed (net q)))
                               [25; 465; 587; 2525])
  /\ blocked_ports_shown results
     = map pretty
         (blocked_ports (analyze_isp_interference scope host net tool p d)).
Proof.
  cbv zeta.
  destruct (analyze_blocked_ports_core scope host net tool p d) as (Hb & _).
  rewrite Hb. unfold open_ports, blocked_ports_shown, scan_smtp_ports.
  rewrite !filter_map_comm, !map_map.
  assert (Ho : forall q, is_open (scan_port net q) = negb (probe_failed (net q)))
    by (intros q; apply (scan_port_result net q)).
  assert (Hp : forall q, port (scan_port net q) = q)
    by (intros q; apply (scan_port_result net q)).
  rewrite (List.filter_ext _ _ Ho).
  rewrite (List.filter_ext (fun x => negb (is_open (scan_port net x)))
             (fun q => probe_failed (net q)))
    by (intros q; rewrite Ho; apply negb_involutive).
  split; [| split].
  - rewrite !length_map.
    pose proof (filter_split_length (fun q => negb (probe_failed (net q)))
                  smtp_ports) as Hl.
    rewrite (List.filter_ext (fun q => negb (negb (probe_failed (net q))))
               (fun q => probe_failed (net q))) in Hl
      by (intros q; apply negb_involutive).
    exact Hl.
  - apply map_ext. intros q. rewrite Hp. reflexivity.
  - apply map_ext. intros q. rewrite Hp. reflexivity.
Qed.

End MainFacts.

Section LifecycleFacts.
Import Py Monitor Samples.

(** *** The life cycle of the monitor *)

Lemma observe_while_running t (c : pconn) (m : NetworkMonitor) :
  monitoring m = false ->
  observe t c (start_monitoring m) = start_monitoring (observe t c m)
  /\ monitoring (observe t c m) = false.
Proof.
  destruct m as [p n mon cs st kn lf]. cbn. intros ->.
  unfold observe, start_monitoring. cbn.
  destruct (String.eqb (status c) CONN_NONE); [split; reflexivity |].
  destruct (decide (conn_id c ∈ kn)); split; reflexivity.
Qed.

Lemma session_steps (obs : list (Q * pconn)) (m : NetworkMonitor) :
  monitoring m = false ->
  let steps := map (fun o => Observe (fst o) (snd o)) obs in
  run_events steps (start_monitoring m) = start_monitoring (run_events steps m)
  /\ monitoring (run_events steps m) = false.
Proof.
  cbv zeta. revert m. induction obs as [| [t c] obs IH]; intros m Hidle.
  - split; [reflexivity | exact Hidle].
  - cbn [map fst snd run_events fold_left apply_event].
    destruct (observe_while_running t c m Hidle) as [-> Hidle'].
    exact (IH (observe t c m) Hidle').
Qed.

(** A call of [start_monitoring] on a running monitor and a call of
    [stop_monitoring] on an idle one, such as a monitor that was never
    started, change nothing.  In every state either call changes the
    running flag at most: it leaves the flag set, resp. cleared, and the
    log, the counters, the dedup set, the pid, the process name and the
    path of the log file as they were.  So a session, a start, any steps
    of the loop and a stop, leaves an idle monitor exactly as these steps
    of the loop alone make it. *)
Theorem start_stop_lifecycle (m : NetworkMonitor) :
  (monitoring m = true -> start_monitoring m = m)
  /\ (monitoring m = false -> stop_monitoring m = m)
  /\ (forall pid name log_file,
        stop_monitoring (init pid name log_file) = init pid name log_file)
  /\ monitoring (start_monitoring m) = true
  /\ monitoring (stop_monitoring m) = false
  /\ (forall call,
        call = start_monitoring \/ call = stop_monitoring ->
        connections (call m) = connections m
        /\ stats (call m) = stats m
        /\ known_connections (call m) = known_connections m
        /\ pid (call m) = pid m
        /\ process_name (call m) = process_name m
        /\ log_file_path (call m) = log_file_path m)
  /\ (forall obs : list (Q * pconn),
        monitoring m = false ->
        let steps := map (fun o => Observe (fst o) (snd o)) obs in
        stop_monitoring (run_events steps (start_monitoring m))
        = run_events steps m).
Proof.
  split.
  { destruct m as [p n mon cs st kn lf]. intros H. cbn in H. subst mon.
    reflexivity. }
  split.
  { destruct m as [p n mon cs st kn lf]. intros H. cbn in H. subst mon.
    reflexivity. }
  split; [reflexivity |].
  split; [destruct m as [p n [] cs st kn lf]; reflexivity |].
  split; [destruct m as [p n [] cs st kn lf]; reflexivity |].
  split.
  { intros call [-> | ->]; destruct m as [p n [] cs st kn lf];
      repeat split. }
  intros obs Hidle. cbv zeta.
  destruct (session_steps obs m Hidle) as [-> Hidle'].
  destruct (run_events _ m) as [p n mon cs st kn lf].
  cbn in Hidle'. subst mon. reflexivity.
Qed.

(** *** What the steps keep *)

Lemma classes_exclusive (p : Z) :
  (smtp_class p = true -> imap_class p = false /\ dns_class p = false)
  /\ (imap_class p = true -> dns_class p = false).
Proof.
  unfold smtp_class, imap_class, dns_class, mem. cbn.
  repeat match goal with
         | |- context [?a =? ?b] => destruct (Z.eqb_spec a b)
         end; cbn; split; intros; try split; try congruence; try lia.
Qed.

Lemma categorize_counts r s :
  let s' := _categorize_connection r (remote_port r) s in
  let one b := if b : bool then 1 else 0 in
  total_connections s' = total_connections s
  /\ smtp_connections s' = smtp_connections s + one (smtp_class (remote_port r))
  /\ imap_connections s' = imap_connections s + one (imap_class (remote_port r))
  /\ dns_queries s' = dns_queries s + one (dns_class (remote_port r))
  /\ other_connections s'
     = other_connections s + one (other_class (remote_port r))
  /\ bytes_sent s' = bytes_sent s
  /\ bytes_received s' = bytes_received s.
Proof.
  cbv zeta. unfold _categorize_connection, other_class.
  destruct (classes_exclusive (remote_port r)) as [Hs Hi].
  destruct (smtp_class (remote_port r)).
  - destruct (Hs eq_refl) as [-> ->]. cbn. repeat split; lia.
  - destruct (imap_class (remote_port r)).
    + rewrite (Hi eq_refl). cbn. repeat split; lia.
    + destruct (dns_class (remote_port r)); cbn; repeat split; lia.
Qed.

Lemma count_class_snoc f l r :
  count_class f (l ++ [r])
  = count_class f l + if f (remote_port r) then 1 else 0.
Proof.
  unfold count_class. rewrite List.filter_app, length_app. cbn.
  destruct (f (remote_port r)); cbn; lia.
Qed.

Lemma counters_agree_with_log_core (m : NetworkMonitor) :
  reachable m ->
  total_connections (stats m) = Z.of_nat (length (connections m))
  /\ smtp_connections (stats m)
     = Z.of_nat (length (get_smtp_connections m))
  /\ imap_connections (stats m)
     = Z.of_nat (length (get_imap_connections m))
  /\ dns_queries (stats m) = count_class dns_class (connections m)
  /\ other_connections (stats m) = count_class other_class (connections m)
  /\ total_connections (stats m)
     = smtp_connections (stats m) + imap_connections (stats m)
       + dns_queries (stats m) + other_connections (stats m)
  /\ bytes_sent (stats m) = 0
  /\ bytes_received (stats m) = 0.
Proof.
  unfold get_smtp_connections, get_imap_connections.
  change (fun m => Z.of_nat (length (List.filter
            (fun conn => smtp_class (remote_port conn)) (connections m))))
    with (fun m => count_class smtp_class (connections m)).
  induction 1 as [p n f | m Hm IH | m Hm IH | m t c Hm IH].
  - cbn. repeat split.
  - unfold start_monitoring. destruct (monitoring m); exact IH.
  - unfold stop_monitoring. destruct (negb (monitoring m)); exact IH.
  - unfold observe.
    destruct (String.eqb (status c) CONN_NONE); [exact IH |].
    destruct (decide _); [exact IH |].
    cbn [stats connections].
    destruct IH as (H1 & H2 & H3 & H4 & H5 & H6 & H7 & H8).
    pose proof (categorize_counts (make_record t m c) (bump_total (stats m)))
      as Hc. cbv zeta in Hc.
    destruct Hc as (C1 & C2 & C3 & C4 & C5 & C6 & C7).
    cbn [bump_total total_connections smtp_connections imap_connections
         dns_queries other_connections bytes_sent bytes_received] in *.
    fold (count_class smtp_class (connections m ++ [make_record t m c])).
    fold (count_class imap_class (connections m ++ [make_record t m c])).
    fold (count_class smtp_class (connections m)) in H2.
    fold (count_class imap_class (connections m)) in H3.
    rewrite !count_class_snoc, length_app. cbn [length].
    rewrite C1, C2, C3, C4, C5, C6, C7.
    assert (Hsum :
      (if smtp_class (remote_port (make_record t m c)) then 1 else 0)
      + (if imap_class (remote_port (make_record t m c)) then 1 else 0)
      + (if dns_class (remote_port (make_record t m c)) then 1 else 0)
      + (if other_class (remote_port (make_record t m c)) then 1 else 0) = 1).
    { unfold other_class.
      destruct (classes_exclusive (remote_port (make_record t m c)))
        as [Hs Hi].
      destruct (smtp_class _); [destruct (Hs eq_refl) as [-> ->]; reflexivity |].
      destruct (imap_class _); [rewrite (Hi eq_refl); reflexivity |].
      destruct (dns_class _); reflexivity. }
    repeat split; lia.
Qed.

(** In every state of the monitor the counters agree with the log: the
    total is the number of records, the smtp and imap counters are the
    lengths of what [get_smtp_connections] and [get_imap_connections]
    return, the dns and other counters count the records of their class,
    the four classes add up to the total, and the byte counters are 0. *)
Theorem counters_agree_with_log (m : NetworkMonitor) :
  reachable m ->
  total_connections (stats m) = Z.of_nat (length (connections m))
  /\ smtp_connections (stats m)
     = Z.of_nat (length (get_smtp_connections m))
  /\ imap_connections (stats m)
     = Z.of_nat (length (get_imap_connections m))
  /\ dns_queries (stats m) = count_class dns_class (connections m)
  /\ other_connections (stats m) = count_class other_class (connections m)
  /\ total_connections (stats m)
     = smtp_connections (stats m) + imap_connections (stats m)
       + dns_queries (stats m) + other_connections (stats m)
  /\ bytes_sent (stats m) = 0
  /\ bytes_received (stats m) = 0.
Proof. exact (counters_agree_with_log_core m). Qed.

Lemma counters_agree_with_log_witness :
  total_connections (stats used) = Z.of_nat (length (connections used))
  /\ smtp_connections (stats used)
     = Z.of_nat (length (get_smtp_connections used))
  /\ imap_connections (stats used)
     = Z.of_nat (length (get_imap_connections used))
  /\ dns_queries (stats used) = count_class dns_class (connections used)
  /\ other_connections (stats used)
     = count_class other_class (connections used)
  /\ total_connections (stats used)
     = smtp_connections (stats used) + imap_connections (stats used)
       + dns_queries (stats used) + other_connections (stats used)
  /\ bytes_sent (stats used) = 0
  /\ bytes_received (stats used) = 0.
Proof.
  apply (counters_agree_with_log used). unfold used. repeat constructor.
Defined.

End LifecycleFacts.

Section LogFacts.
Import Py Monitor Samples.

(** *** The log and the dedup set *)

Lemma observe_cases t (c : pconn) m :
  observe t c m = m
  \/ (status c <> CONN_NONE /\ (conn_id c ∉ known_connections m)
      /\ observe t c m =
         {| pid := pid m;
            process_name := process_name m;
            monitoring := monitoring m;
            connections := connections m ++ [make_record t m c];
            stats := _categorize_connection (make_record t m c)
                       (remote_port (make_record t m c))
                       (bump_total (stats m));
            known_connections := {[ conn_id c ]} ∪ known_connections m;
            log_file_path := log_file_path m |}).
Proof.
  destruct (String.eqb_spec (status c) CONN_NONE) as [Hs | Hs].
  - left. apply observe_none. exact Hs.
  - destruct (decide (conn_id c ∈ known_connections m)) as [Hk | Hk].
    + left. apply observe_known. exact Hk.
    + right. split; [exact Hs |]. split; [exact Hk |].
      apply observe_new; assumption.
Qed.

(** In every state of the monitor the dedup set has one key for each
    record of the log. *)
Theorem one_key_per_record (m : NetworkMonitor) :
  reachable m ->
  size (known_connections m) = length (connections m).
Proof.
  induction 1 as [p n f | m Hm IH | m Hm IH | m t c Hm IH].
  - cbn. apply size_empty.
  - unfold start_monitoring. destruct (monitoring m); exact IH.
  - unfold stop_monitoring. destruct (negb (monitoring m)); exact IH.
  - destruct (observe_cases t c m) as [-> | (_ & Hk & ->)]; [exact IH |].
    cbn [known_connections connections].
    rewrite size_union by set_solver.
    rewrite size_singleton, length_app, IH. cbn. lia.
Qed.

Lemma one_key_per_record_witness :
  size (known_connections used) = length (connections used).
Proof.
  apply (one_key_per_record used). unfold used. repeat constructor.
Defined.

Lemma stats_le_refl s : stats_le s s.
Proof. unfold stats_le. repeat split; lia. Qed.

Lemma stats_le_trans s1 s2 s3 : stats_le s1 s2 -> stats_le s2 s3 -> stats_le s1 s3.
Proof. unfold stats_le. intros H1 H2. repeat split; lia. Qed.

Lemma categorize_le r p s : stats_le s (_categorize_connection r p (bump_total s)).
Proof.
  unfold stats_le, _categorize_connection, bump_total.
  repeat case_match; cbn; repeat split; lia.
Qed.

Lemma apply_event_grows (e : event) m :
  (exists added, connections (apply_event m e) = (connections m ++ added)%list)
  /\ stats_le (stats m) (stats (apply_event m e))
  /\ pid (apply_event m e) = pid m
  /\ process_name (apply_event m e) = process_name m
  /\ log_file_path (apply_event m e) = log_file_path m.
Proof.
  destruct e as [| | t c]; cbn [apply_event].
  - unfold start_monitoring. destruct (monitoring m); cbn;
      (split; [exists []; rewrite app_nil_r; reflexivity |]);
      (split; [apply stats_le_refl |]); repeat split.
  - unfold stop_monitoring. destruct (negb (monitoring m)); cbn;
      (split; [exists []; rewrite app_nil_r; reflexivity |]);
      (split; [apply stats_le_refl |]); repeat split.
  - destruct (observe_cases t c m) as [-> | (_ & _ & ->)].
    + split; [exists []; rewrite app_nil_r; reflexivity |].
      split; [apply stats_le_refl |]. repeat split.
    + cbn. split; [eexists; reflexivity |].
      split; [apply categorize_le |]. repeat split.
Qed.

(** Along any history of starts, stops and loop steps the log only grows
    at its end, no counter decreases, the dedup set keeps its keys, and the
    pid, the process name and the path of the log file stay the same. *)
Theorem history_only_appends (history : list event) (m : NetworkMonitor) :
  let m' := run_events history m in
  (exists added, connections m' = (connections m ++ added)%list)
  /\ stats_le (stats m) (stats m')
  /\ known_connections m ⊆ known_connections m'
  /\ pid m' = pid m
  /\ process_name m' = process_name m
  /\ log_file_path m' = log_file_path m.
Proof.
  cbv zeta. revert m. induction history as [| e history IH]; intros m.
  - cbn. split; [exists []; rewrite app_nil_r; reflexivity |].
    split; [apply stats_le_refl |]. repeat split. set_solver.
  - cbn [run_events fold_left].
    destruct (apply_event_grows e m) as ([a1 Ha1] & Hs1 & Hp1 & Hn1 & Hl1).
    destruct (IH (apply_event m e)) as ([a2 Ha2] & Hs2 & Hk2 & Hp2 & Hn2 & Hl2).
    unfold run_events in *.
    split; [exists (a1 ++ a2)%list; rewrite Ha2, Ha1, app_assoc; reflexivity |].
    split; [exact (stats_le_trans _ _ _ Hs1 Hs2) |].
    split; [etrans; [apply (apply_event_known e) | exact Hk2] |].
    repeat split; congruence.
Qed.

(** *** A tick seen twice *)

Lemma tick_as_events t (conns : list pconn) m :
  tick t conns m = run_events (map (Observe t) conns) m.
Proof.
  unfold tick, run_events. revert m.
  induction conns as [| c conns IH]; intros m; [reflexivity |].
  cbn. apply IH.
Qed.

Lemma observe_marks t (c : pconn) m :
  status c <> CONN_NONE -> conn_id c ∈ known_connections (observe t c m).
Proof.
  intros Hs. destruct (decide (conn_id c ∈ known_connections m)) as [Hk | Hk].
  - rewrite observe_known; assumption.
  - rewrite observe_new by assumption. cbn. set_solver.
Qed.

Lemma tick_marks t (conns : list pconn) m (c : pconn) :
  In c conns -> status c <> CONN_NONE ->
  conn_id c ∈ known_connections (tick t conns m).
Proof.
  revert m. induction conns as [| c' conns IH]; intros m Hin Hs;
    [destruct Hin |].
  cbn [tick fold_left]. destruct Hin as [-> | Hin].
  - fold (tick t conns (observe t c m)). rewrite tick_as_events.
    apply (run_events_known _ (observe t c m)). apply observe_marks. exact Hs.
  - apply (IH (observe t c' m) Hin Hs).
Qed.

Lemma tick_all_known t (conns : list pconn) m :
  (forall c, In c conns -> status c <> CONN_NONE ->
             conn_id c ∈ known_connections m) ->
  tick t conns m = m.
Proof.
  induction conns as [| c conns IH]; intros Hall; [reflexivity |].
  cbn [tick fold_left].
  assert (Hc : observe t c m = m).
  { destruct (String.eqb_spec (status c) CONN_NONE) as [Hs | Hs].
    - apply observe_none. exact Hs.
    - apply observe_known. apply Hall; [left; reflexivity | exact Hs]. }
  rewrite Hc. apply IH. intros c' Hin Hs. apply Hall; [right |]; assumption.
Qed.

(** A tick that finds the connection table of the tick before, whole or in
    part and in any order, changes nothing, and so does every later tick
    that finds no connection with a new key. *)
Theorem tick_twice_is_tick_once
  (t t' : Q) (conns again : list pconn) (later : list event)
  (m : NetworkMonitor) :
  (forall c, In c again -> In c conns) ->
  let m1 := tick t conns m in
  let m2 := run_events later m1 in
  tick t' again m1 = m1 /\ tick t' again m2 = m2.
Proof.
  intros Hsub m1 m2. split.
  - apply tick_all_known. intros c Hin Hs.
    apply tick_marks; [apply Hsub; exact Hin | exact Hs].
  - apply tick_all_known. intros c Hin Hs.
    apply (run_events_known later m1).
    apply tick_marks; [apply Hsub; exact Hin | exact Hs].
Qed.

Lemma tick_twice_is_tick_once_witness :
  let conns := [sample_conn "93.184.216.34" 587; sample_conn "10.1.1.1" 53] in
  let m1 := tick 1 conns fresh in
  let m2 := run_events [Stop; Start] m1 in
  tick 2 (rev conns) m1 = m1 /\ tick 2 (rev conns) m2 = m2.
Proof.
  intros conns.
  apply (tick_twice_is_tick_once 1 2 conns (rev conns) [Stop; Start] fresh).
  intros c Hin. apply in_rev. exact Hin.
Defined.

End LogFacts.

Section RecordFacts.
Import Py Monitor Samples.

(** *** The records of the log *)

(** In every state of the monitor no logged record has the status NONE,
    every record is marked TCP or UDP, and every record carries the process
    name of the monitor. *)
Theorem logged_records_wellformed (m : NetworkMonitor) :
  reachable m ->
  Forall (fun r =>
            conn_status r <> CONN_NONE
            /\ (protocol r = "TCP" \/ protocol r = "UDP")
            /\ conn_process_name r = process_name m)
         (connections m).
Proof.
  induction 1 as [p n f | m Hm IH | m Hm IH | m t c Hm IH].
  - constructor.
  - unfold start_monitoring. destruct (monitoring m); exact IH.
  - unfold stop_monitoring. destruct (negb (monitoring m)); exact IH.
  - destruct (observe_cases t c m) as [-> | (Hs & _ & ->)]; [exact IH |].
    cbn [connections process_name]. apply Forall_app. split; [exact IH |].
    constructor; [| constructor]. cbn.
    split; [exact Hs |]. split; [| reflexivity].
    destruct (type_ c); auto.
Qed.

Lemma logged_records_wellformed_witness :
  Forall (fun r =>
            conn_status r <> CONN_NONE
            /\ (protocol r = "TCP" \/ protocol r = "UDP")
            /\ conn_process_name r = process_name used)
         (connections used).
Proof.
  apply (logged_records_wellformed used). unfold used. repeat constructor.
Defined.

(** A new connection without remote address, a listening socket, is
    logged with the remote address [unknown] and the remote port 0: it is
    counted in the other class and is never suspicious. *)
Theorem observe_without_remote
  (m : NetworkMonitor) (t : Q) (c : pconn) :
  raddr c = None ->
  status c <> CONN_NONE ->
  conn_id c ∉ known_connections m ->
  let r := make_record t m c in
  let m' := observe t c m in
  remote_addr r = "unknown" /\ remote_port r = 0
  /\ _is_suspicious_connection r = false
  /\ other_connections (stats m') = other_connections (stats m) + 1
  /\ suspicious_connections (stats m') = suspicious_connections (stats m)
  /\ total_connections (stats m') = total_connections (stats m) + 1.
Proof.
  intros Hr Hs Hk r m'.
  assert (Ha : remote_addr r = "unknown")
    by (subst r; unfold make_record; cbn; rewrite Hr; reflexivity).
  assert (Hp : remote_port r = 0)
    by (subst r; unfold make_record; cbn; rewrite Hr; reflexivity).
  assert (Hsus : _is_suspicious_connection r = false).
  { unfold _is_suspicious_connection, watch_pattern_hit, unexpected_high_port.
    rewrite Ha, Hp. vm_compute. reflexivity. }
  split; [exact Ha |]. split; [exact Hp |]. split; [exact Hsus |].
  subst m'. rewrite (observe_new t c m Hs Hk). fold r. cbn [stats].
  unfold _categorize_connection. rewrite Hp. cbn. rewrite Hsus.
  repeat split.
Qed.

Lemma observe_without_remote_witness :
  let c := {| fd := 5; family := 2; type_ := SOCK_STREAM;
              laddr := Some {| ip := "0.0.0.0"; port := 8025 |};
              raddr := None; status := "LISTEN" |} in
  let r := make_record 3 used c in
  let m' := observe 3 c used in
  remote_addr r = "unknown" /\ remote_port r = 0
  /\ _is_suspicious_connection r = false
  /\ other_connections (stats m') = other_connections (stats used) + 1
  /\ suspicious_connections (stats m') = suspicious_connections (stats used)
  /\ total_connections (stats m') = total_connections (stats used) + 1.
Proof.
  intros c.
  apply (observe_without_remote used 3 c).
  - reflexivity.
  - vm_compute. discriminate.
  - vm_compute. set_solver.
Defined.

(** *** The suspicion predicate *)

Lemma monitor_mem_In (x : Z) (l : list Z) : Monitor.mem x l = true <-> In x l.
Proof.
  unfold Monitor.mem. rewrite existsb_exists. split.
  - intros (y & Hy & He). apply Z.eqb_eq in He. subst. exact Hy.
  - intros H. exists x. split; [exact H | apply Z.eqb_refl].
Qed.

(** The rule on ports flags a record exactly when its remote port is above
    8000 and is neither 8080 nor 8443: the table of expected services holds
    no port above 8000, so looking the port up in it changes nothing.  A
    record is suspicious exactly when this rule or the watch list flags it;
    a record on a port up to 8000 is suspicious only through the watch
    list. *)
Theorem suspicion_rule (r : NetworkConnection) :
  unexpected_high_port r
  = (8000 <? remote_port r) && negb (remote_port r =? 8080)
    && negb (remote_port r =? 8443)
  /\ _is_suspicious_connection r
     = watch_pattern_hit r || unexpected_high_port r
  /\ (remote_port r <= 8000 ->
      _is_suspicious_connection r = watch_pattern_hit r)
  /\ (8000 < remote_port r -> remote_port r <> 8080 ->
      remote_port r <> 8443 -> _is_suspicious_connection r = true).
Proof.
  assert (Hport : unexpected_high_port r
    = (8000 <? remote_port r) && negb (remote_port r =? 8080)
      && negb (remote_port r =? 8443)).
  { unfold unexpected_high_port.
    destruct (Monitor.mem (remote_port r) (map fst expected_services)) eqn:Hm;
      [| reflexivity].
    apply monitor_mem_In in Hm.
    unfold expected_services in Hm. cbn [map fst In] in Hm.
    assert (Hle : remote_port r <= 993) by intuition lia.
    cbn. replace (8000 <? remote_port r) with false; [reflexivity |].
    symmetry. apply Z.ltb_ge. lia. }
  assert (Hsus : _is_suspicious_connection r
                 = watch_pattern_hit r || unexpected_high_port r).
  { unfold _is_suspicious_connection.
    destruct (watch_pattern_hit r), (unexpected_high_port r); reflexivity. }
  split; [exact Hport |]. split; [exact Hsus |]. split.
  - intros Hle. rewrite Hsus, Hport.
    replace (8000 <? remote_port r) with false
      by (symmetry; apply Z.ltb_ge; lia).
    cbn. apply orb_false_r.
  - intros Hgt H1 H2. rewrite Hsus, Hport.
    apply Z.ltb_lt in Hgt. apply Z.eqb_neq in H1, H2.
    rewrite Hgt, H1, H2. cbn. apply orb_true_r.
Qed.

(** *** get_recent_connections *)

(** For a positive limit the accessor returns the last records of the log,
    as many as the limit or all of them when the log is shorter; for the
    limit 0 it returns the whole log; for a negative limit it drops that
    many records from the front.  What it returns is always an end of the
    log. *)
Theorem get_recent_connections_slice (limit : Z) (m : NetworkMonitor) :
  let l := connections m in
  let n := Z.of_nat (length l) in
  (exists front, l = (front ++ get_recent_connections limit m)%list)
  /\ (0 < limit ->
      get_recent_connections limit m = drop (Z.to_nat (n - limit)) l
      /\ Z.of_nat (length (get_recent_connections limit m)) = Z.min limit n)
  /\ (limit = 0 -> get_recent_connections limit m = l)
  /\ (limit < 0 ->
      get_recent_connections limit m = drop (Z.to_nat (- limit)) l).
Proof.
  cbv zeta. unfold get_recent_connections, slice_from.
  destruct (connections m) as [| r l] eqn:Hl.
  - split; [exists []; reflexivity |]. split; [| split].
    + intros Hpos. rewrite drop_nil. split; [reflexivity |].
      cbn [length]. lia.
    + reflexivity.
    + intros _. rewrite drop_nil. reflexivity.
  - set (full := r :: l). set (n := Z.of_nat (length full)).
    assert (Hn : 0 < n) by (subst n full; cbn [length]; lia).
    split; [| split; [| split]].
    + eexists. symmetry. apply take_drop.
    + intros Hpos. destruct (- limit <? 0) eqn:Hneg;
        [| apply Z.ltb_ge in Hneg; lia].
      assert (Hfirst : Z.to_nat (Z.max 0 (n + - limit)) = Z.to_nat (n - limit))
        by lia.
      rewrite Hfirst. split; [reflexivity |].
      rewrite length_drop. fold n. lia.
    + intros ->. cbn [Z.opp]. rewrite Z.ltb_irrefl.
      replace (Z.to_nat (Z.min 0 n)) with 0%nat by lia. reflexivity.
    + intros Hneg. destruct (- limit <? 0) eqn:Hlt;
        [apply Z.ltb_lt in Hlt; lia |].
      destruct (Z.min_spec (- limit) n) as [[_ ->] | [Hge ->]];
        [reflexivity |].
      rewrite !drop_ge; [reflexivity | |]; subst n; lia.
Qed.

End RecordFacts.

Section ReportFacts.
Import Py Monitor Samples.

(** *** export_report on any log *)

(** For every state of the monitor the report agrees with the counters it
    prints: after the twelve writes of the header and the statistics, the
    section of email connections holds one line for each connection
    counted smtp or imap, or its placeholder when both counters are 0; the
    section of suspicious connections holds one line for each record
    [get_suspicious_connections] returns, or its placeholder when there is
    none; the section of all connections holds one line for each logged
    connection, as many as the total counter, in the order of the log. *)
Theorem export_report_sections
  (hms : Q -> string) (generated : string) (m : NetworkMonitor) :
  reachable m ->
  exists front email suspicious,
    export_report hms generated m
    = (front ++ email
       ++ [nl +:+ "=== SUSPICIOUS CONNECTIONS ===" +:+ nl] ++ suspicious
       ++ [nl +:+ "=== ALL CONNECTIONS ===" +:+ nl]
       ++ map (fun conn => conn_str hms conn +:+ nl) (connections m))%list
    /\ length front = 12%nat
    /\ last front = Some ("=== EMAIL SERVER CONNECTIONS ===" +:+ nl)
    /\ (if smtp_connections (stats m) + imap_connections (stats m) =? 0
        then email = ["No email server connections detected." +:+ nl]
        else email
             = map (fun conn => conn_str hms conn +:+ nl)
                   (get_smtp_connections m ++ get_imap_connections m)
             /\ Z.of_nat (length email)
                = smtp_connections (stats m) + imap_connections (stats m))
    /\ (match get_suspicious_connections m with
        | [] => suspicious = ["No suspicious connections detected." +:+ nl]
        | l => suspicious = map (fun conn => conn_str hms conn +:+ nl) l
        end)
    /\ Z.of_nat (length (connections m)) = total_connections (stats m).
Proof.
  intros Hreach.
  destruct (counters_agree_with_log_core m Hreach) as (Ht & Hs & Hi & _).
  unfold export_report, write_conns.
  exists
    ([ "=== EMAIL INVESTIGATION TOOL - NETWORK MONITORING REPORT ===" +:+ nl;
      "Generated: " +:+ generated +:+ nl;
      "Process PID: " +:+ pretty (pid m) +:+ nl;
      "Log File: " +:+ log_file_path m +:+ nl +:+ nl;
      "=== STATISTICS ===" +:+ nl;
      "Total connections: " +:+ pretty (total_connections (stats m)) +:+ nl;
      "SMTP connections: " +:+ pretty (smtp_connections (stats m)) +:+ nl;
      "IMAP connections: " +:+ pretty (imap_connections (stats m)) +:+ nl;
      "DNS queries: " +:+ pretty (dns_queries (stats m)) +:+ nl;
      "Other connections: " +:+ pretty (other_connections (stats m)) +:+ nl;
      "Suspicious connections: "
        +:+ pretty (suspicious_connections (stats m)) +:+ nl +:+ nl;
      "=== EMAIL SERVER CONNECTIONS ===" +:+ nl ])%list,
    (map (fun conn => conn_str hms conn +:+ nl)
         (get_smtp_connections m ++ get_imap_connections m)
     ++ match (get_smtp_connections m ++ get_imap_connections m)%list with
        | [] => ["No email server connections detected." +:+ nl]
        | _ => []
        end)%list,
    (map (fun conn => conn_str hms conn +:+ nl)
         (get_suspicious_connections m)
     ++ match get_suspicious_connections m with
        | [] => ["No suspicious connections detected." +:+ nl]
        | _ => []
        end)%list.
  split; [rewrite <- !app_assoc; reflexivity |].
  split; [reflexivity |]. split; [reflexivity |].
  split; [| split; [| lia]].
  - rewrite Hs, Hi.
    destruct (get_smtp_connections m ++ get_imap_connections m)%list
      as [| r l] eqn:He.
    + apply app_eq_nil in He as [-> ->]. cbn. reflexivity.
    + assert (Hlen : (length (get_smtp_connections m)
                      + length (get_imap_connections m) = S (length l))%nat).
      { rewrite <- length_app, He. reflexivity. }
      destruct (_ =? 0) eqn:Hz; [apply Z.eqb_eq in Hz; lia |].
      rewrite app_nil_r. split; [reflexivity |].
      rewrite length_map. cbn [length]. lia.
  - destruct (get_suspicious_connections m) as [| r l].
    + reflexivity.
    + rewrite app_nil_r. reflexivity.
Qed.

Lemma export_report_sections_witness :
  exists front email suspicious,
    export_report midnight "2024-01-01 00:00:00" used
    = (front ++ email
       ++ [nl +:+ "=== SUSPICIOUS CONNECTIONS ===" +:+ nl] ++ suspicious
       ++ [nl +:+ "=== ALL CONNECTIONS ===" +:+ nl]
       ++ map (fun conn => conn_str midnight conn +:+ nl) (connections used))%list
    /\ length front = 12%nat
    /\ last front = Some ("=== EMAIL SERVER CONNECTIONS ===" +:+ nl)
    /\ (if smtp_connections (stats used) + imap_connections (stats used) =? 0
        then email = ["No email server connections detected." +:+ nl]
        else email
             = map (fun conn => conn_str midnight conn +:+ nl)
                   (get_smtp_connections used ++ get_imap_connections used)
             /\ Z.of_nat (length email)
                = smtp_connections (stats used) + imap_connections (stats used))
    /\ (match get_suspicious_connections used with
        | [] => suspicious = ["No suspicious connections detected." +:+ nl]
        | l => suspicious = map (fun conn => conn_str midnight conn +:+ nl) l
        end)
    /\ Z.of_nat (length (connections used)) = total_connections (stats used).
Proof.
  apply (export_report_sections midnight "2024-01-01 00:00:00" used).
  unfold used. repeat constructor.
Defined.

End ReportFacts.
